(** * The network resource orchestrator of modules/network/networker.go

    A shallow embedding of [networker.go]: the resource lookup of
    [ApplyNetResource] and [DeleteNetResource], the create and delete
    sequences of the builder, the key handling and peer construction of
    [configureWG], and [endpoint].

    The kernel and file-system primitives the Go code calls (packages
    [bridge], [namespace], [wireguard], [netlink], CNI's [ip] and [ns]) are
    an interface, [Kernel]; every call the code makes is recorded, in order,
    in the [calls] of the [World] it runs in, so that statements about which
    primitive is invoked, with which arguments and after which other, are
    statements about that list. *)

From Stdlib Require Import Strings.Byte Strings.Ascii.
From stdpp Require Import gmap strings pretty list.

Local Open Scope string_scope.
Local Open Scope list_scope.

(** ** Go's [net] package: the part [endpoint] depends on *)

Module net.

(** [type IP []byte]; [None] below stands for a nil slice. *)
Definition IP : Type := list byte.
Definition IPMask : Type := list byte.

(** [type IPNet struct { IP IP; Mask IPMask }] *)
Record IPNet : Type := { IPNet_IP : IP; IPNet_Mask : IPMask }.

(** [type Interface struct { ...; Name string; ... }]: the code reads
    only [Name]. *)
Record Interface : Type := { Name : string }.

Definition IPv4len : nat := 4.
Definition IPv6len : nat := 16.

Definition v4InV6Prefix : list byte :=
  [x00; x00; x00; x00; x00; x00; x00; x00; x00; x00; xff; xff].

(** [func IPv4(a, b, c, d byte) IP]: the 16-byte form of a.b.c.d *)
Definition IPv4 (a b c d : byte) : IP := v4InV6Prefix ++ [a; b; c; d].

Definition isZeros (p : list byte) : bool := forallb (Byte.eqb x00) p.

Definition byteAt (p : list byte) (i : nat) : N :=
  Byte.to_N (default x00 (p !! i)).

(** [func (ip IP) To4() IP] *)
Definition To4 (ip : IP) : option IP :=
  if (length ip =? IPv4len)%nat then Some ip
  else if (length ip =? IPv6len)%nat && isZeros (take 10 ip)
          && (byteAt ip 10 =? 255)%N && (byteAt ip 11 =? 255)%N
  then Some (drop 12 ip)
  else None.

(** [func (ip IP) To16() IP] *)
Definition To16 (ip : IP) : option IP :=
  match ip with
  | [a; b; c; d] => Some (IPv4 a b c d)
  | _ => if (length ip =? IPv6len)%nat then Some ip else None
  end.

Definition hexDigit (v : N) : ascii :=
  default "0"%char (String.get (N.to_nat v) "0123456789abcdef").

(** [appendHex]: lower-case hexadecimal, no leading zeros *)
Definition appendHex (i : N) : string :=
  if (i =? 0)%N then "0"
  else
    foldr (λ j acc,
             let v := N.shiftr i (4 * j) in
             if (0 <? v)%N then String (hexDigit (N.land v 15)) acc else acc)
          "" [7; 6; 5; 4; 3; 2; 1; 0]%N.

(** [hexString]: two digits per byte *)
Definition hexString (b : list byte) : string :=
  foldr (λ x acc,
           let n := Byte.to_N x in
           String (hexDigit (N.shiftr n 4)) (String (hexDigit (N.land n 15)) acc))
        "" b.

(** the inner loop of [String]:
    [for j < IPv6len && p[j] == 0 && p[j+1] == 0 { j += 2 }] *)
Fixpoint zerosFrom (p : list byte) (fuel j : nat) : nat :=
  match fuel with
  | O => j
  | S fuel' =>
      if (j <? IPv6len)%nat && (byteAt p j =? 0)%N && (byteAt p (j + 1) =? 0)%N
      then zerosFrom p fuel' (j + 2)
      else j
  end.

(** the first loop of [String]: the longest run of zero groups, as the
    pair [(e0, e1)], both [-1] when there is none *)
Fixpoint longestZeros (p : list byte) (fuel i : nat) (e0 e1 : Z) : Z * Z :=
  match fuel with
  | O => (e0, e1)
  | S fuel' =>
      if (i <? IPv6len)%nat then
        let j := zerosFrom p 8 i in
        if (i <? j)%nat && (e1 - e0 <? Z.of_nat j - Z.of_nat i)%Z
        then longestZeros p fuel' (j + 2) (Z.of_nat i) (Z.of_nat j)
        else longestZeros p fuel' (i + 2) e0 e1
      else (e0, e1)
  end.

Definition group (p : list byte) (i : nat) : N :=
  N.lor (N.shiftl (byteAt p i) 8) (byteAt p (i + 1)).

(** the second loop of [String]: the groups, with [::] for the run *)
Fixpoint printGroups (p : list byte) (fuel i : nat) (e0 e1 : Z) : string :=
  match fuel with
  | O => ""
  | S fuel' =>
      if (i <? IPv6len)%nat then
        if (Z.of_nat i =? e0)%Z then
          let i' := Z.to_nat e1 in
          "::" +:+ (if (IPv6len <=? i')%nat then ""
                    else appendHex (group p i') +:+ printGroups p fuel' (i' + 2) e0 e1)
        else
          (if (0 <? i)%nat then ":" else "")
            +:+ appendHex (group p i) +:+ printGroups p fuel' (i + 2) e0 e1
      else ""
  end.

Definition uitoa (n : N) : string := pretty n.

(** [func (ip IP) String() string] *)
Definition String (ip : IP) : string :=
  if (length ip =? 0)%nat then "<nil>"
  else
    match To4 ip with
    | Some [a; b; c; d] =>
        uitoa (Byte.to_N a) +:+ "." +:+ uitoa (Byte.to_N b) +:+ "."
          +:+ uitoa (Byte.to_N c) +:+ "." +:+ uitoa (Byte.to_N d)
    | _ =>
        if negb (length ip =? IPv6len)%nat then "?" +:+ hexString ip
        else
          let '(e0, e1) := longestZeros ip 8 0 (-1) (-1) in
          let '(e0, e1) := if (e1 - e0 <=? 2)%Z then ((-1)%Z, (-1)%Z) else (e0, e1) in
          printGroups ip 8 0 e0 e1
    end.

End net.

(** ** Results, errors *)

(** A Go [error] is its message. *)
Definition error : Type := string.

(** What a fallible call returns: [Ok a] for [(a, nil)], [Err e] for a
    non-nil error; for a function whose only result is an [error], [Ok tt]
    is [nil]. *)
Inductive result (E A : Type) : Type :=
| Ok (a : A)
| Err (e : E).
Arguments Ok {E A} a.
Arguments Err {E A} e.

(** ** What the file takes from outside *)

(** The declarations of package [modules] and of [wgtypes] that the code
    uses and that are not among the sources: [modules.NodeID] (a struct
    compared with [==], with a string field [ID]), the type of a peer's
    [Type] with its constant [modules.ConnTypeWireguard], and [wgtypes.Key]
    with its zero value and its [String()]. *)
Class Declarations : Type := {
  modules_NodeID : Type;
  modules_NodeID_eq_dec :: EqDecision modules_NodeID;
  ID : modules_NodeID → string;
  modules_ConnType : Type;
  modules_ConnType_eq_dec :: EqDecision modules_ConnType;
  modules_ConnTypeWireguard : modules_ConnType;
  wgtypes_Key : Type;
  wgtypes_Key_zero : wgtypes_Key;
  wgtypes_Key_String : wgtypes_Key → string;
}.

(** Functions of Go's standard library that are called but not modelled:
    [filepath.Join], [net.ParseCIDR] and the [String] method of [net.IPNet]. *)
Class GoLib : Type := {
  filepath_Join : string → string → string;
  net_ParseCIDR : string → result error (net.IP * net.IPNet);
  net_IPNet_String : net.IPNet → string;
}.

(** Modelled from the spec: package [modules/network/ip] (the Nibble) is
    not among the sources.  The spec (4.1) makes its function set pure,
    deterministic and free of I/O, failing only in [ToV4]; so each is a
    function here, and nothing more is assumed of them. *)
Class NibbleAPI : Type := {
  zosip_Nibble : Type;
  NewNibble : net.IPNet → Z → zosip_Nibble;
  NetworkName : zosip_Nibble → string;
  BridgeName : zosip_Nibble → string;
  WiregardName : zosip_Nibble → string;
  VethName : zosip_Nibble → string;
  Hex : zosip_Nibble → string;
  ToV4 : zosip_Nibble → result error (Z * Z);
}.

(** [wireguard.Peer] *)
Record wireguard_Peer : Type := {
  PublicKey : string;
  Endpoint : string;
  AllowedIPs : list string;
}.

(** The zero value of [wireguard.Peer], what [make([]wireguard.Peer, n)]
    fills a slice with. *)
Definition wireguard_Peer_zero : wireguard_Peer :=
  {| PublicKey := ""; Endpoint := ""; AllowedIPs := [] |}.

(** The primitives: a state [K] (the kernel's objects and the key files),
    the handles the calls return, and each call as a function of the state.
    [K_NetNS_Do_enter] and [K_NetNS_Do_leave] are the two halves of CNI's
    [NetNS.Do]: it switches to the namespace, failing before the closure
    runs if it cannot, hands the closure the namespace it came from, and
    switches back when the closure returns (a deferred call, whatever the
    closure returned). *)
Class Kernel `{Declarations} : Type := {
  K : Type;
  netlink_Bridge : Type;
  ns_NetNS : Type;
  netlink_Link : Type;
  wireguard_Wireguard : Type;
  K_bridge_New : string → K → result error netlink_Bridge * K;
  K_bridge_Delete : string → K → result error () * K;
  K_bridge_AttachNic : netlink_Link → netlink_Bridge → K → result error () * K;
  K_namespace_Create : string → K → result error ns_NetNS * K;
  K_namespace_Delete : string → K → result error () * K;
  K_namespace_GetByName : string → K → result error ns_NetNS * K;
  K_namespace_SetLink : wireguard_Wireguard → string → K → result error () * K;
  K_NetNS_Do_enter : ns_NetNS → K → result error ns_NetNS * K;
  K_NetNS_Do_leave : ns_NetNS → K → K;
  K_ip_SetupVeth : string → Z → ns_NetNS → K
                 → result error (net.Interface * net.Interface) * K;
  K_netlink_LinkByName : string → K → result error netlink_Link * K;
  K_netlink_AddrAdd : netlink_Link → net.IPNet → K → result error () * K;
  K_wireguard_New : string → K → result error wireguard_Wireguard * K;
  K_wireguard_GetByName : string → K → result error wireguard_Wireguard * K;
  K_wireguard_LoadKey : string → K → result (wgtypes_Key * error) wgtypes_Key * K;
  K_wireguard_GenerateKey : string → K → result (wgtypes_Key * error) wgtypes_Key * K;
  K_Wireguard_Configure : wireguard_Wireguard → string → string
                        → list wireguard_Peer → K → result error () * K;
}.

Section Model.
Context {Hdecl : Declarations} {Hlib : GoLib} {Hnib : NibbleAPI} {Hkern : Kernel}.

(** ** The data model of package [modules] *)

Definition modules_NetID : Type := string.

(** the [Connection] of a peer: public key, IP and port *)
Record modules_Connection : Type := {
  IP : net.IP;
  Port : Z;
  Key : string;
}.

(** [modules.Connected]; the field [Type] is [Type_] here *)
Record modules_Connected : Type := {
  Type_ : modules_ConnType;
  Connection : modules_Connection;
}.

Record modules_NetResource : Type := {
  NodeID : modules_NodeID;
  Prefix : net.IPNet;
  LinkLocal : net.IPNet;
  Connected : list modules_Connected;
}.

(** [AllocationNR] is an [int8] that is only passed on. *)
Record modules_Network : Type := {
  NetID : modules_NetID;
  Resources : list modules_NetResource;
  AllocationNR : Z;
}.

(** [type networker struct]; the allocator is used by [GetNetwork] only *)
Record networker : Type := {
  nodeID : modules_NodeID;
  storageDir : string;
}.

(** ** Calls and worlds *)

(** One constructor per primitive the code calls, with the arguments of
    the call. *)
Inductive Call : Type :=
| Bridge_New (name : string)
| Bridge_Delete (name : string)
| Bridge_AttachNic (link : netlink_Link) (br : netlink_Bridge)
| Namespace_Create (name : string)
| Namespace_Delete (name : string)
| Namespace_GetByName (name : string)
| Namespace_SetLink (wg : wireguard_Wireguard) (name : string)
| NetNS_Do (netns : ns_NetNS)
| Ip_SetupVeth (name : string) (mtu : Z) (hostNS : ns_NetNS)
| Netlink_LinkByName (name : string)
| Netlink_AddrAdd (link : netlink_Link) (addr : net.IPNet)
| Wireguard_New (name : string)
| Wireguard_GetByName (name : string)
| Wireguard_LoadKey (path : string)
| Wireguard_GenerateKey (path : string)
| Wg_Configure (wg : wireguard_Wireguard) (addr key : string)
               (peers : list wireguard_Peer).

(** The calls made so far, oldest first, and the state they left. *)
Record World : Type := { calls : list Call; kernel : K }.

(** A computation that may fail with an [E]. *)
Definition M (E A : Type) : Type := World → result E A * World.

Definition ret {E A} (a : A) : M E A := λ w, (Ok a, w).

Definition bind {E A B} (m : M E A) (f : A → M E B) : M E B :=
  λ w, match m w with
       | (Ok a, w') => f a w'
       | (Err e, w') => (Err e, w')
       end.

(** a pure fallible step *)
Definition lift {E A} (r : result E A) : M E A := λ w, (r, w).

(** [return key, err] where the callee returned [err] alone *)
Definition map_err {E E' A} (f : E → E') (m : M E A) : M E' A :=
  λ w, match m w with
       | (Ok a, w') => (Ok a, w')
       | (Err e, w') => (Err (f e), w')
       end.

(** A call of a primitive: recorded, then run on the kernel. *)
Definition invoke {E A} (c : Call) (op : K → result E A * K) : M E A :=
  λ w, let '(r, k) := op (kernel w) in
       (r, {| calls := calls w ++ [c]; kernel := k |}).

Local Notation "x <- m ;; k" := (bind m (λ x, k))
  (at level 100, m at next level, right associativity, only parsing).
#[warnings="-notation-incompatible-prefix"]
Local Notation "' p <- m ;; k" := (bind m (λ p, k))
  (at level 100, p pattern, m at next level, right associativity, only parsing).

(** ** The primitives, as the code calls them *)

Definition bridge_New (name : string) : M error netlink_Bridge :=
  invoke (Bridge_New name) (K_bridge_New name).
Definition bridge_Delete (name : string) : M error () :=
  invoke (Bridge_Delete name) (K_bridge_Delete name).
Definition bridge_AttachNic (link : netlink_Link) (br : netlink_Bridge) : M error () :=
  invoke (Bridge_AttachNic link br) (K_bridge_AttachNic link br).
Definition namespace_Create (name : string) : M error ns_NetNS :=
  invoke (Namespace_Create name) (K_namespace_Create name).
Definition namespace_Delete (name : string) : M error () :=
  invoke (Namespace_Delete name) (K_namespace_Delete name).
Definition namespace_GetByName (name : string) : M error ns_NetNS :=
  invoke (Namespace_GetByName name) (K_namespace_GetByName name).
Definition namespace_SetLink (wg : wireguard_Wireguard) (name : string) : M error () :=
  invoke (Namespace_SetLink wg name) (K_namespace_SetLink wg name).
Definition ip_SetupVeth (name : string) (mtu : Z) (hostNS : ns_NetNS)
  : M error (net.Interface * net.Interface) :=
  invoke (Ip_SetupVeth name mtu hostNS) (K_ip_SetupVeth name mtu hostNS).
Definition netlink_LinkByName (name : string) : M error netlink_Link :=
  invoke (Netlink_LinkByName name) (K_netlink_LinkByName name).
Definition netlink_AddrAdd (link : netlink_Link) (addr : net.IPNet) : M error () :=
  invoke (Netlink_AddrAdd link addr) (K_netlink_AddrAdd link addr).
Definition wireguard_New (name : string) : M error wireguard_Wireguard :=
  invoke (Wireguard_New name) (K_wireguard_New name).
Definition wireguard_GetByName (name : string) : M error wireguard_Wireguard :=
  invoke (Wireguard_GetByName name) (K_wireguard_GetByName name).
Definition wireguard_LoadKey (path : string) : M (wgtypes_Key * error) wgtypes_Key :=
  invoke (Wireguard_LoadKey path) (K_wireguard_LoadKey path).
Definition wireguard_GenerateKey (path : string) : M (wgtypes_Key * error) wgtypes_Key :=
  invoke (Wireguard_GenerateKey path) (K_wireguard_GenerateKey path).
Definition Wireguard_Configure (wg : wireguard_Wireguard) (addr key : string)
    (peers : list wireguard_Peer) : M error () :=
  invoke (Wg_Configure wg addr key peers) (K_Wireguard_Configure wg addr key peers).

(** [netns.Do(handler)]: the closure runs between the two halves, and its
    result is the result of [Do]. *)
Definition netns_Do {A} (netns : ns_NetNS) (handler : ns_NetNS → M error A) : M error A :=
  λ w, match invoke (NetNS_Do netns) (K_NetNS_Do_enter netns) w with
       | (Err e, w') => (Err e, w')
       | (Ok hostNS, w') =>
           let '(r, w'') := handler hostNS w' in
           (r, {| calls := calls w''; kernel := K_NetNS_Do_leave hostNS (kernel w'') |})
       end.

(** [%d] *)
Definition fmt_d (z : Z) : string := pretty z.

(** ** networker.go *)

(** [endpoint], lines 260-268 *)
Definition endpoint (peer : modules_Connected) : string :=
  match net.To16 (IP (Connection peer)) with
  | Some _ =>
      "[" +:+ net.String (IP (Connection peer)) +:+ "]:" +:+ fmt_d (Port (Connection peer))
  | None =>
      net.String (IP (Connection peer)) +:+ ":" +:+ fmt_d (Port (Connection peer))
  end.

(** The loop of [createNetworkResource], lines 140-146: one [AddrAdd] per
    address, stopping at the first that fails. *)
Fixpoint createNetworkResource_addrs (link : netlink_Link) (ipnets : list net.IPNet)
  : M error () :=
  match ipnets with
  | [] => ret ()
  | ipnet :: rest =>
      _ <- netlink_AddrAdd link ipnet ;;
      createNetworkResource_addrs link rest
  end.

(** Lines 130-138 of [createNetworkResource]: the IPv4 address of the
    veth end, [ParseCIDR] of ["10.a.b.1/24"] with [ipnetv4.IP = ip]. *)
Definition createNetworkResource_ipnetv4 (nibble : zosip_Nibble) : result error net.IPNet :=
  match ToV4 nibble with
  | Err err => Err err
  | Ok (a, b) =>
      match net_ParseCIDR ("10." +:+ fmt_d a +:+ "." +:+ fmt_d b +:+ ".1/24") with
      | Err err => Err err
      | Ok (ip, ipnetv4) =>
          Ok {| net.IPNet_IP := ip; net.IPNet_Mask := net.IPNet_Mask ipnetv4 |}
      end
  end.

(** The closure [handler] of [createNetworkResource], lines 113-149.  It
    writes [hostIface.Name], a variable of the enclosing function that is
    read after [Do] returned without error: here that name is the value
    the closure returns. *)
Definition createNetworkResource_handler (resource : modules_NetResource)
    (nibble : zosip_Nibble) (vethName : string) (hostNS : ns_NetNS) : M error string :=
  ' (hostVeth, containerVeth) <- ip_SetupVeth vethName 1500 hostNS ;;
  link <- netlink_LinkByName (net.Name containerVeth) ;;
  let ipnetv6 := Prefix resource in
  ipnetv4 <- lift (createNetworkResource_ipnetv4 nibble) ;;
  _ <- createNetworkResource_addrs link [ipnetv6; ipnetv4] ;;
  ret (net.Name hostVeth).

(** [createNetworkResource], lines 91-182 *)
Definition createNetworkResource (netID : modules_NetID) (resource : modules_NetResource)
    (allorNr : Z) : M error () :=
  let nibble := NewNibble (Prefix resource) allorNr in
  let netnsName := NetworkName nibble in
  let bridgeName := BridgeName nibble in
  let wgName := WiregardName nibble in
  let vethName := VethName nibble in
  br <- bridge_New bridgeName ;;
  netns <- namespace_Create netnsName ;;
  hostIface_Name <- netns_Do netns (createNetworkResource_handler resource nibble vethName) ;;
  hostVeth <- netlink_LinkByName hostIface_Name ;;
  _ <- bridge_AttachNic hostVeth br ;;
  wg <- wireguard_New wgName ;;
  _ <- namespace_SetLink wg netnsName ;;
  ret ().

(** [deleteNetResource], lines 184-194 *)
Definition deleteNetResource (resource : modules_NetResource) (allocNr : Z) : M error () :=
  let nibble := NewNibble (Prefix resource) allocNr in
  let netnsName := NetworkName nibble in
  let bridgeName := BridgeName nibble in
  _ <- bridge_Delete bridgeName ;;
  namespace_Delete netnsName.

(** The first block of [configureWG], lines 206-212: load the key, and
    generate one when loading failed. *)
Definition configureWG_key (storagePath : string) : M (wgtypes_Key * error) wgtypes_Key :=
  λ w, match wireguard_LoadKey storagePath w with
       | (Ok key, w') => (Ok key, w')
       | (Err _, w') => wireguard_GenerateKey storagePath w'
       end.

(** The loop of [configureWG], lines 216-233, from index [i] on; [peers]
    is the slice being filled, [peers[i] = ...] the update at [i]. *)
Fixpoint configureWG_range (nibble : zosip_Nibble) (i : nat)
    (connected : list modules_Connected) (peers : list wireguard_Peer)
  : result error (list wireguard_Peer) :=
  match connected with
  | [] => Ok peers
  | peer :: rest =>
      if decide (Type_ peer ≠ modules_ConnTypeWireguard)
      then configureWG_range nibble (S i) rest peers
      else
        match ToV4 nibble with
        | Err err => Err err
        | Ok (a, b) =>
            configureWG_range nibble (S i) rest
              (<[i := {| PublicKey := Key (Connection peer);
                         Endpoint := endpoint peer;
                         AllowedIPs := [ "fe80::" +:+ Hex nibble +:+ "/128";
                                         "172.16." +:+ fmt_d a +:+ "." +:+ fmt_d b +:+ "/32" ]
                      |}]> peers)
        end
  end.

(** Lines 215-233: [make([]wireguard.Peer, len(resource.Connected))], then
    the loop. *)
Definition configureWG_peers (nibble : zosip_Nibble) (resource : modules_NetResource)
  : result error (list wireguard_Peer) :=
  let peers := replicate (length (Connected resource)) wireguard_Peer_zero in
  configureWG_range nibble 0 (Connected resource) peers.

(** The closure [handler] of [configureWG], lines 240-252 *)
Definition configureWG_handler (resource : modules_NetResource) (wgName : string)
    (key : wgtypes_Key) (peers : list wireguard_Peer) (_ : ns_NetNS) : M error () :=
  wg <- wireguard_GetByName wgName ;;
  _ <- Wireguard_Configure wg (net_IPNet_String (LinkLocal resource))
         (wgtypes_Key_String key) peers ;;
  ret ().

(** The rest of [configureWG] once it holds [key], lines 214-257 *)
Definition configureWG_configure (key : wgtypes_Key) (resource : modules_NetResource)
    (nibble : zosip_Nibble) : M (wgtypes_Key * error) wgtypes_Key :=
  let netnsName := NetworkName nibble in
  let wgName := WiregardName nibble in
  peers <- map_err (pair key) (lift (configureWG_peers nibble resource)) ;;
  netns <- map_err (pair key) (namespace_GetByName netnsName) ;;
  _ <- map_err (pair key) (netns_Do netns (configureWG_handler resource wgName key peers)) ;;
  ret key.

(** [configureWG], lines 196-258 *)
Definition configureWG (storageDir : string) (resource : modules_NetResource)
    (allocNr : Z) : M (wgtypes_Key * error) wgtypes_Key :=
  let nibble := NewNibble (Prefix resource) allocNr in
  let storagePath := filepath_Join storageDir (Hex nibble) in
  key <- configureWG_key storagePath ;;
  configureWG_configure key resource nibble.

(** [applyNetResource], lines 77-86 *)
Definition applyNetResource (storageDir : string) (netID : modules_NetID)
    (netRes : modules_NetResource) (allocNr : Z) : M error () :=
  _ <- createNetworkResource netID netRes allocNr ;;
  _ <- map_err snd (configureWG storageDir netRes allocNr) ;;
  ret ().

(** The loop of [ApplyNetResource], lines 50-55: [Some res] when it left
    by [break] with [resource = &res], [None] when [resource] stayed nil. *)
Fixpoint ApplyNetResource_range (n : networker) (resources : list modules_NetResource)
  : option modules_NetResource :=
  match resources with
  | [] => None
  | res :: rest =>
      if decide (NodeID res = nodeID n) then Some res
      else ApplyNetResource_range n rest
  end.

(** [ApplyNetResource], lines 47-61 *)
Definition ApplyNetResource (n : networker) (network : modules_Network) : M error () :=
  match ApplyNetResource_range n (Resources network) with
  | None => lift (Err ("not network resource for this node: " +:+ ID (nodeID n)))
  | Some resource =>
      applyNetResource (storageDir n) (NetID network) resource (AllocationNR network)
  end.

(** The loop of [DeleteNetResource], lines 65-70 *)
Fixpoint DeleteNetResource_range (n : networker) (resources : list modules_NetResource)
  : option modules_NetResource :=
  match resources with
  | [] => None
  | res :: rest =>
      if decide (NodeID res = nodeID n) then Some res
      else DeleteNetResource_range n rest
  end.

(** [DeleteNetResource], lines 63-75 *)
Definition DeleteNetResource (n : networker) (network : modules_Network) : M error () :=
  match DeleteNetResource_range n (Resources network) with
  | None => lift (Err ("not network resource for this node: " +:+ ID (nodeID n)))
  | Some resource => deleteNetResource resource (AllocationNR network)
  end.

(** ** Reading a list of calls *)

(** the calls of the create sequence *)
Definition is_builder_call (c : Call) : bool :=
  match c with
  | Bridge_New _ | Namespace_Create _ | NetNS_Do _ | Ip_SetupVeth _ _ _
  | Netlink_LinkByName _ | Netlink_AddrAdd _ _ | Bridge_AttachNic _ _
  | Wireguard_New _ | Namespace_SetLink _ _ => true
  | _ => false
  end.

(** the calls that read or write a key file *)
Definition is_key_call (c : Call) : bool :=
  match c with
  | Wireguard_LoadKey _ | Wireguard_GenerateKey _ => true
  | _ => false
  end.

(** the calls that configure the tunnel *)
Definition is_mesh_call (c : Call) : bool :=
  match c with
  | Namespace_GetByName _ | NetNS_Do _ | Wireguard_GetByName _
  | Wg_Configure _ _ _ _ => true
  | _ => false
  end.

(** Every name, address and key path in the call is the one the Nibble of
    [(prefix, allocNr)] gives. *)
Definition derived (prefix : net.IPNet) (allocNr : Z) (c : Call) : Prop :=
  let nibble := NewNibble prefix allocNr in
  match c with
  | Bridge_New name | Bridge_Delete name => name = BridgeName nibble
  | Namespace_Create name | Namespace_Delete name | Namespace_GetByName name
  | Namespace_SetLink _ name => name = NetworkName nibble
  | Ip_SetupVeth name _ _ => name = VethName nibble
  | Wireguard_New name | Wireguard_GetByName name => name = WiregardName nibble
  | Netlink_AddrAdd _ addr =>
      addr = prefix ∨ createNetworkResource_ipnetv4 nibble = Ok addr
  | Wireguard_LoadKey path | Wireguard_GenerateKey path =>
      ∃ dir, path = filepath_Join dir (Hex nibble)
  | NetNS_Do _ | Netlink_LinkByName _ | Bridge_AttachNic _ _
  | Wg_Configure _ _ _ _ => True
  end.

(** the entry the loop of [configureWG] writes for a peer of the tunnel
    type when [ToV4] gave [(a, b)] *)
Definition peer_entry (nibble : zosip_Nibble) (a b : Z) (peer : modules_Connected)
  : wireguard_Peer :=
  {| PublicKey := Key (Connection peer);
     Endpoint := endpoint peer;
     AllowedIPs := [ "fe80::" +:+ Hex nibble +:+ "/128";
                     "172.16." +:+ fmt_d a +:+ "." +:+ fmt_d b +:+ "/32" ] |}.

(** the addresses assigned, in order, each with the link it went to *)
Definition addresses_added (l : list Call) : list (netlink_Link * net.IPNet) :=
  omap (λ c, match c with
             | Netlink_AddrAdd link addr => Some (link, addr)
             | _ => None
             end) l.

(** the peer lists handed to [Configure], in order *)
Definition configured_peers (l : list Call) : list (list wireguard_Peer) :=
  omap (λ c, match c with
             | Wg_Configure _ _ _ peers => Some peers
             | _ => None
             end) l.

(** the key that [configureWG] returns, with or without an error *)
Definition key_of {A} (r : result (wgtypes_Key * A) wgtypes_Key) : wgtypes_Key :=
  match r with
  | Ok key => key
  | Err (key, _) => key
  end.

End Model.

(** ** The primitives the spec describes

    The sources of packages [bridge], [namespace] and [wireguard] are not at
    hand.  What the spec says of them, that a bridge or a namespace exists
    under its name from its creation to its deletion, that deleting an
    absent one is a lookup error, and that a key file holds the key that
    was generated for its path, is added here on top of an arbitrary
    [Kernel]: the kernel underneath still decides whether a creation, a
    deletion or a key generation succeeds and which key is generated. *)

Section SpecModel.
Context {Hdecl : Declarations} (base : Kernel).

Record SpecState : Type := {
  under : @K _ base;
  bridges : gset string;
  namespaces : gset string;
  keyfiles : gmap string wgtypes_Key;
}.

Definition set_under (s : SpecState) (k : @K _ base) : SpecState :=
  {| under := k; bridges := bridges s; namespaces := namespaces s;
     keyfiles := keyfiles s |}.

(** a primitive the spec adds nothing to *)
Definition through {E A} (op : @K _ base → result E A * @K _ base)
  : SpecState → result E A * SpecState :=
  λ s, let '(r, k) := op (under s) in (r, set_under s k).

(** Modelled from the spec: [bridge.New] (package [bridge] is missing),
    "create a bridge named BridgeName() on the host if absent". *)
Definition spec_bridge_New (name : string)
  : SpecState → result error (@netlink_Bridge _ base) * SpecState :=
  λ s, match K_bridge_New name (under s) with
       | (Ok br, k) =>
           (Ok br, {| under := k; bridges := {[name]} ∪ bridges s;
                      namespaces := namespaces s; keyfiles := keyfiles s |})
       | (Err e, k) => (Err e, set_under s k)
       end.

(** Modelled from the spec: [bridge.Delete] (package [bridge] is missing),
    "delete the bridge by name"; "deleting a non-existent bridge or
    namespace is not idempotent [...] it surfaces as a lookup error". *)
Definition spec_bridge_Delete (name : string) : SpecState → result error () * SpecState :=
  λ s, if decide (name ∈ bridges s) then
         match K_bridge_Delete name (under s) with
         | (Ok _, k) =>
             (Ok (), {| under := k; bridges := bridges s ∖ {[name]};
                        namespaces := namespaces s; keyfiles := keyfiles s |})
         | (Err e, k) => (Err e, set_under s k)
         end
       else (Err ("KernelObjectError: no bridge " +:+ name), s).

(** Modelled from the spec: [namespace.Create] (package [namespace] is
    missing), "create a network namespace named NetworkName()". *)
Definition spec_namespace_Create (name : string)
  : SpecState → result error (@ns_NetNS _ base) * SpecState :=
  λ s, match K_namespace_Create name (under s) with
       | (Ok netns, k) =>
           (Ok netns, {| under := k; bridges := bridges s;
                         namespaces := {[name]} ∪ namespaces s;
                         keyfiles := keyfiles s |})
       | (Err e, k) => (Err e, set_under s k)
       end.

(** Modelled from the spec: [namespace.Delete] (package [namespace] is
    missing), "delete the namespace by name", a lookup error when there
    is none of that name. *)
Definition spec_namespace_Delete (name : string)
  : SpecState → result error () * SpecState :=
  λ s, if decide (name ∈ namespaces s) then
         match K_namespace_Delete name (under s) with
         | (Ok _, k) =>
             (Ok (), {| under := k; bridges := bridges s;
                        namespaces := namespaces s ∖ {[name]};
                        keyfiles := keyfiles s |})
         | (Err e, k) => (Err e, set_under s k)
         end
       else (Err ("KernelObjectError: no namespace " +:+ name), s).

(** Modelled from the spec: [wireguard.LoadKey] (package [wireguard] is
    missing), "load a previously persisted key from the storage path";
    it fails when no key was persisted there. *)
Definition spec_wireguard_LoadKey (path : string)
  : SpecState → result (wgtypes_Key * error) wgtypes_Key * SpecState :=
  λ s, match keyfiles s !! path with
       | Some key => (Ok key, s)
       | None => (Err (wgtypes_Key_zero, "KeyIOError: no key at " +:+ path), s)
       end.

(** Modelled from the spec: [wireguard.GenerateKey] (package [wireguard]
    is missing), "generate a fresh key pair and persist the private key
    at that path, then return it". *)
Definition spec_wireguard_GenerateKey (path : string)
  : SpecState → result (wgtypes_Key * error) wgtypes_Key * SpecState :=
  λ s, match K_wireguard_GenerateKey path (under s) with
       | (Ok key, k) =>
           (Ok key, {| under := k; bridges := bridges s; namespaces := namespaces s;
                       keyfiles := <[path := key]> (keyfiles s) |})
       | (Err e, k) => (Err e, set_under s k)
       end.

Definition spec_kernel : Kernel := {|
  K := SpecState;
  netlink_Bridge := @netlink_Bridge _ base;
  ns_NetNS := @ns_NetNS _ base;
  netlink_Link := @netlink_Link _ base;
  wireguard_Wireguard := @wireguard_Wireguard _ base;
  K_bridge_New := spec_bridge_New;
  K_bridge_Delete := spec_bridge_Delete;
  K_bridge_AttachNic := λ link br, through (K_bridge_AttachNic link br);
  K_namespace_Create := spec_namespace_Create;
  K_namespace_Delete := spec_namespace_Delete;
  K_namespace_GetByName := λ name, through (K_namespace_GetByName name);
  K_namespace_SetLink := λ wg name, through (K_namespace_SetLink wg name);
  K_NetNS_Do_enter := λ netns, through (K_NetNS_Do_enter netns);
  K_NetNS_Do_leave := λ netns s, set_under s (K_NetNS_Do_leave netns (under s));
  K_ip_SetupVeth := λ name mtu hostNS, through (K_ip_SetupVeth name mtu hostNS);
  K_netlink_LinkByName := λ name, through (K_netlink_LinkByName name);
  K_netlink_AddrAdd := λ link addr, through (K_netlink_AddrAdd link addr);
  K_wireguard_New := λ name, through (K_wireguard_New name);
  K_wireguard_GetByName := λ name, through (K_wireguard_GetByName name);
  K_wireguard_LoadKey := spec_wireguard_LoadKey;
  K_wireguard_GenerateKey := spec_wireguard_GenerateKey;
  K_Wireguard_Configure := λ wg addr key peers,
    through (K_Wireguard_Configure wg addr key peers);
|}.

End SpecModel.

(** ** A small concrete instance

    Strings for node identities, peer types, keys and handles; a Nibble
    made of bytes 6 and 7 of the prefix; and a kernel whose state is the
    list of the primitives that are to fail, every other call succeeding.
    The examples and the counterexamples below run the code on it. *)

Module Demo.

Definition declarations : Declarations := {|
  modules_NodeID := string;
  ID := λ id, id;
  modules_ConnType := string;
  modules_ConnTypeWireguard := "wireguard";
  wgtypes_Key := string;
  wgtypes_Key_zero := "";
  wgtypes_Key_String := λ key, key;
|}.

(** the number of one bits of a mask *)
Definition ones (m : net.IPMask) : N :=
  foldr (λ b acc, N.of_nat (length (filter (λ i, N.testbit (Byte.to_N b) i = true)
                                           [0; 1; 2; 3; 4; 5; 6; 7]%N)) + acc)%N 0%N m.

Fixpoint split (sep : ascii) (s : string) : list string :=
  match s with
  | EmptyString => [""]
  | String c rest =>
      if Ascii.eqb c sep then "" :: split sep rest
      else match split sep rest with
           | [] => [String c ""]
           | hd :: tl => String c hd :: tl
           end
  end.

Definition digit (c : ascii) : option N :=
  let n := N_of_ascii c in
  if (48 <=? n)%N && (n <=? 57)%N then Some (n - 48)%N else None.

Fixpoint dtoi (acc : N) (s : string) : option N :=
  match s with
  | EmptyString => Some acc
  | String c rest => d ← digit c; dtoi (10 * acc + d)%N rest
  end.

Definition number (bound : N) (s : string) : option N :=
  if decide (s = "") then None
  else n ← dtoi 0 s; if (n <=? bound)%N then Some n else None.

(** the [i]-th byte of the mask of [n] leading ones *)
Definition maskByte (n : N) (i : N) : N :=
  if (8 * (i + 1) <=? n)%N then 255%N
  else if (n <=? 8 * i)%N then 0%N
  else (256 - 2 ^ (8 - (n - 8 * i)))%N.

Definition toByte (n : N) : byte := default x00 (Byte.of_N n).

(** [net.ParseCIDR], for dotted IPv4 addresses only *)
Definition ParseCIDR (s : string) : result error (net.IP * net.IPNet) :=
  let bad := Err ("invalid CIDR address: " +:+ s) in
  match split "/" s with
  | [addr; mask] =>
      match number 255 <$> split "." addr, number 32 mask with
      | [Some a; Some b; Some c; Some d], Some n =>
          let m := maskByte n <$> [0; 1; 2; 3]%N in
          Ok (net.IPv4 (toByte a) (toByte b) (toByte c) (toByte d),
              {| net.IPNet_IP := toByte <$> zip_with N.land [a; b; c; d] m;
                 net.IPNet_Mask := toByte <$> m |})
      | _, _ => bad
      end
  | _ => bad
  end.

Definition golib : GoLib := {|
  filepath_Join := λ dir file, dir +:+ "/" +:+ file;
  net_ParseCIDR := ParseCIDR;
  net_IPNet_String := λ n,
    net.String (net.IPNet_IP n) +:+ "/" +:+ pretty (ones (net.IPNet_Mask n));
|}.

Definition nibble : NibbleAPI := {|
  zosip_Nibble := list byte;
  NewNibble := λ prefix allocNr, take 2 (drop 6 (net.IPNet_IP prefix));
  NetworkName := λ n, "n-" +:+ net.hexString n;
  BridgeName := λ n, "b-" +:+ net.hexString n;
  WiregardName := λ n, "w-" +:+ net.hexString n;
  VethName := λ n, "v-" +:+ net.hexString n;
  Hex := net.hexString;
  ToV4 := λ n,
    match n with
    | [a; b] => Ok (Z.of_N (Byte.to_N a), Z.of_N (Byte.to_N b))
    | _ => Err "InvalidAddressError"
    end;
|}.

(** a primitive that fails when its name is listed, and returns [v]
    otherwise *)
Definition prim {E A} (name : string) (e : E) (v : A) (k : list string)
  : result E A * list string :=
  if bool_decide (name ∈ k) then (Err e, k) else (Ok v, k).

Definition kern : @Kernel declarations := {|
  K := list string;
  netlink_Bridge := string;
  ns_NetNS := string;
  netlink_Link := string;
  wireguard_Wireguard := string;
  K_bridge_New := λ name, prim "bridge.New" "bridge.New failed" name;
  K_bridge_Delete := λ name, prim "bridge.Delete" "bridge.Delete failed" ();
  K_bridge_AttachNic := λ link br, prim "bridge.AttachNic" "bridge.AttachNic failed" ();
  K_namespace_Create := λ name, prim "namespace.Create" "namespace.Create failed" name;
  K_namespace_Delete := λ name, prim "namespace.Delete" "namespace.Delete failed" ();
  K_namespace_GetByName := λ name,
    prim "namespace.GetByName" "namespace.GetByName failed" name;
  K_namespace_SetLink := λ wg name, prim "namespace.SetLink" "namespace.SetLink failed" ();
  K_NetNS_Do_enter := λ netns, prim "netns.Do" "netns.Do failed" "host";
  K_NetNS_Do_leave := λ hostNS k, k;
  K_ip_SetupVeth := λ name mtu hostNS,
    prim "ip.SetupVeth" "ip.SetupVeth failed"
         ({| net.Name := "veth0" |}, {| net.Name := name |});
  K_netlink_LinkByName := λ name, prim "netlink.LinkByName" "netlink.LinkByName failed" name;
  K_netlink_AddrAdd := λ link addr, prim "netlink.AddrAdd" "netlink.AddrAdd failed" ();
  K_wireguard_New := λ name, prim "wireguard.New" "wireguard.New failed" name;
  K_wireguard_GetByName := λ name,
    prim "wireguard.GetByName" "wireguard.GetByName failed" name;
  K_wireguard_LoadKey := λ path,
    prim (E := @wgtypes_Key declarations * error) (A := @wgtypes_Key declarations)
         "wireguard.LoadKey" ("", "wireguard.LoadKey failed") "key-on-disk";
  K_wireguard_GenerateKey := λ path,
    prim (E := @wgtypes_Key declarations * error) (A := @wgtypes_Key declarations)
         "wireguard.GenerateKey" ("", "wireguard.GenerateKey failed")
         ("key-for-" +:+ path);
  K_Wireguard_Configure := λ wg addr key peers,
    prim "wg.Configure" "wg.Configure failed" ();
|}.

(** 2001:db8:aaaa::/64 *)
Definition prefix : net.IPNet := {|
  net.IPNet_IP := [x20; x01; x0d; xb8; xaa; xaa; x00; x00;
                   x00; x00; x00; x00; x00; x00; x00; x00];
  net.IPNet_Mask := [xff; xff; xff; xff; xff; xff; xff; xff;
                     x00; x00; x00; x00; x00; x00; x00; x00];
|}.

(** *** Inputs *)

(** a peer of the tunnel type at 2001:db8::1, port 51820 *)
Definition tunnel_peer : @modules_Connected declarations := {|
  Type_ := "wireguard" : @modules_ConnType declarations;
  Connection := {| IP := [x20; x01; x0d; xb8; x00; x00; x00; x00;
                          x00; x00; x00; x00; x00; x00; x00; x01];
                   Port := 51820; Key := "peer-public-key" |};
|}.

(** a peer of the tunnel type at 10.0.0.5, port 51820 *)
Definition ipv4_peer : @modules_Connected declarations := {|
  Type_ := "wireguard" : @modules_ConnType declarations;
  Connection := {| IP := [x0a; x00; x00; x05]; Port := 51820;
                   Key := "other-public-key" |};
|}.

(** a peer of another type *)
Definition other_peer : @modules_Connected declarations := {|
  Type_ := "other" : @modules_ConnType declarations;
  Connection := {| IP := [x0a; x00; x00; x07]; Port := 4242; Key := "ignored" |};
|}.

(** the resource of node-1, connected to a tunnel peer and to a peer of
    another type *)
Definition resource : @modules_NetResource declarations := {|
  NodeID := "node-1" : @modules_NodeID declarations;
  Prefix := prefix;
  LinkLocal := {| net.IPNet_IP := [xfe; x80; x00; x00; x00; x00; x00; x00;
                                   x00; x00; x00; x00; x00; x00; xaa; xaa];
                  net.IPNet_Mask := net.IPNet_Mask prefix |};
  Connected := [tunnel_peer; other_peer];
|}.

(** the same resource under another identity and without peers *)
Definition renamed : @modules_NetResource declarations := {|
  NodeID := "node-9" : @modules_NodeID declarations;
  Prefix := Prefix resource;
  LinkLocal := LinkLocal resource;
  Connected := [];
|}.

(** a second entry of node-1, with the prefix 2001:db8:bbbb:1::/64 *)
Definition second_resource : @modules_NetResource declarations := {|
  NodeID := "node-1" : @modules_NodeID declarations;
  Prefix := {| net.IPNet_IP := [x20; x01; x0d; xb8; xbb; xbb; x00; x01;
                                x00; x00; x00; x00; x00; x00; x00; x00];
               net.IPNet_Mask := net.IPNet_Mask prefix |};
  LinkLocal := LinkLocal resource;
  Connected := [];
|}.

(** the entry of node-2 *)
Definition foreign_resource : @modules_NetResource declarations := {|
  NodeID := "node-2" : @modules_NodeID declarations;
  Prefix := Prefix second_resource;
  LinkLocal := LinkLocal resource;
  Connected := [ipv4_peer];
|}.

(** a resource whose prefix is too short for [ToV4] *)
Definition short_resource : @modules_NetResource declarations := {|
  NodeID := "node-1" : @modules_NodeID declarations;
  Prefix := {| net.IPNet_IP := [x0a; x00; x00; x00];
               net.IPNet_Mask := [xff; x00; x00; x00] |};
  LinkLocal := LinkLocal resource;
  Connected := [];
|}.

Definition network : @modules_Network declarations := {|
  NetID := "net-1";
  Resources := [foreign_resource; resource; second_resource];
  AllocationNR := 0;
|}.

(** a network without an entry of node-1 *)
Definition foreign_network : @modules_Network declarations := {|
  NetID := "net-2";
  Resources := [foreign_resource];
  AllocationNR := 0;
|}.

Definition node1 : @networker declarations := {|
  nodeID := "node-1" : @modules_NodeID declarations;
  storageDir := "/var/cache/networkd";
|}.

(** no call made yet, no primitive failing *)
Definition world : @World declarations kern :=
  {| calls := []; kernel := [] : @K _ kern |}.

(** the same, with no bridge, no namespace and no key file *)
Definition spec_world : @World declarations (spec_kernel kern) := {|
  calls := [];
  kernel := ({| under := ([] : @K _ kern); bridges := ∅; namespaces := ∅;
                keyfiles := ∅ |} : @K _ (spec_kernel kern));
|}.

(** the same, with the bridge of [resource] and no namespace *)
Definition bridged_world : @World declarations (spec_kernel kern) := {|
  calls := [];
  kernel := ({| under := ([] : @K _ kern); bridges := {["b-0000"]}; namespaces := ∅;
                keyfiles := ∅ |} : @K _ (spec_kernel kern));
|}.

End Demo.

(** ** The rest of networker.go *)

(** What a function that can panic does. *)
Inductive outcome (A : Type) : Type :=
| Returns (a : A)
| Panics.
Arguments Returns {A} a.
Arguments Panics {A}.

Section Rest.
Context {Hdecl : Declarations} {Hlib : GoLib} {Hnib : NibbleAPI} {Hkern : Kernel}.

(** The zero value of [modules.NodeID]: what a field of that type holds
    when a struct literal leaves it out. *)
Variable modules_NodeID_zero : modules_NodeID.

(** [NewNetworker], lines 31-36.  The literal sets [storageDir] and
    [netResAlloc] and leaves [nodeID] out; the allocator, which [networker]
    above does not carry, is returned beside it. *)
Definition NewNetworker {NetResourceAllocator : Type} (storageDir : string)
    (allocator : NetResourceAllocator) : networker * NetResourceAllocator :=
  ({| nodeID := modules_NodeID_zero; storageDir := storageDir |}, allocator).

(** [wgIP], lines 270-278.  [prefixIP[6:8]] panics when the slice has fewer
    than 8 bytes, as the nil slice that [To16] returns for an address that
    is neither 4 nor 16 bytes long; [%x] of a byte slice is two hexadecimal
    digits per byte. *)
Definition wgIP (prefix : net.IPNet) : outcome (result error net.IPNet) :=
  let prefixIP := default [] (net.To16 (net.IPNet_IP prefix)) in
  if (length prefixIP <? 8)%nat then Panics
  else
    let id := take 2 (drop 6 prefixIP) in
    match net_ParseCIDR ("fe80::" +:+ net.hexString id +:+ "/64") with
    | Err err => Returns (Err err)
    | Ok (_, ipnet) => Returns (Ok ipnet)
    end.

End Rest.

(** More inputs for the concrete instance. *)
Module DemoMore.

(** a kernel state in which [namespace.Delete] fails *)
Definition stuck_world : @World Demo.declarations (spec_kernel Demo.kern) := {|
  calls := [];
  kernel := ({| under := (["namespace.Delete"] : @K _ Demo.kern);
                bridges := {["b-0000"]}; namespaces := {["n-0000"]};
                keyfiles := ∅ |} : @K _ (spec_kernel Demo.kern));
|}.

(** the resource of node-1 with its peers in the other order *)
Definition reordered : @modules_NetResource Demo.declarations := {|
  NodeID := "node-1" : @modules_NodeID Demo.declarations;
  Prefix := Prefix Demo.resource;
  LinkLocal := LinkLocal Demo.resource;
  Connected := [Demo.other_peer; Demo.tunnel_peer];
|}.

(** another network with the same first entry of node-1 *)
Definition other_network : @modules_Network Demo.declarations := {|
  NetID := "net-7";
  Resources := [Demo.resource; Demo.foreign_resource];
  AllocationNR := 0;
|}.

(** a resource with a short prefix and a peer of the tunnel type *)
Definition short_peered : @modules_NetResource Demo.declarations := {|
  NodeID := "node-1" : @modules_NodeID Demo.declarations;
  Prefix := Prefix Demo.short_resource;
  LinkLocal := LinkLocal Demo.resource;
  Connected := [Demo.other_peer; Demo.tunnel_peer];
|}.

(** a resource whose only peer is of another type *)
Definition other_only : @modules_NetResource Demo.declarations := {|
  NodeID := "node-1" : @modules_NodeID Demo.declarations;
  Prefix := Prefix Demo.short_resource;
  LinkLocal := LinkLocal Demo.resource;
  Connected := [Demo.other_peer];
|}.

End DemoMore.

(** * Properties *)

Ltac unfold_prims :=
  unfold bridge_New, bridge_Delete, bridge_AttachNic, namespace_Create,
    namespace_Delete, namespace_GetByName, namespace_SetLink, ip_SetupVeth,
    netlink_LinkByName, netlink_AddrAdd, wireguard_New, wireguard_GetByName,
    wireguard_LoadKey, wireguard_GenerateKey, Wireguard_Configure in *.

(** Runs a computation symbolically: one case per outcome of each primitive
    it reaches. *)
Ltac run :=
  repeat (progress (unfold_prims;
                    unfold netns_Do, bind, map_err, lift, ret, invoke in *;
                    simpl in *)
          || (case_match; simplify_eq/=)).

(** Closes [∃ l, calls w ++ [c1] ++ ... = calls w ++ l ∧ ...]. *)
Ltac calls_done :=
  simpl; rewrite <- ?app_assoc; simpl;
  eexists; split; [first [reflexivity | symmetry; apply app_nil_r]|];
  repeat first [ done | split | apply Forall_cons | apply Forall_nil
               | progress simpl | by eauto ].

Section Theorems.
Context {Hdecl : Declarations} {Hlib : GoLib} {Hnib : NibbleAPI} {Hkern : Kernel}.

Implicit Types (n : networker) (network : modules_Network)
  (resource : modules_NetResource) (w : World) (c : Call) (l : list Call).

(** ** The lookup of the local resource *)

(** The loop stops at the first entry of this node: everything before it
    belongs to other nodes. *)
Lemma ApplyNetResource_range_Some n resources resource :
  ApplyNetResource_range n resources = Some resource ↔
  ∃ before after,
    resources = before ++ resource :: after
    ∧ Forall (λ res, NodeID res ≠ nodeID n) before
    ∧ NodeID resource = nodeID n.
Proof.
  induction resources as [|res rest IH]; simpl.
  - split; [done|]. intros (before & after & Heq & _). by destruct before.
  - destruct (decide (NodeID res = nodeID n)) as [Hid|Hid].
    + split.
      * intros [= <-]. by exists [], rest.
      * intros ([|res' before] & after & Heq & Hbefore & Hres); simplify_eq/=; [done|].
        by inversion Hbefore.
    + rewrite IH. split.
      * intros (before & after & -> & Hbefore & Hres).
        exists (res :: before), after. by repeat constructor.
      * intros ([|res' before] & after & Heq & Hbefore & Hres); simplify_eq/=.
        inversion Hbefore; subst. by exists before, after.
Qed.

Lemma ApplyNetResource_range_None n resources :
  ApplyNetResource_range n resources = None ↔
  Forall (λ res, NodeID res ≠ nodeID n) resources.
Proof.
  induction resources as [|res rest IH]; simpl.
  - split; [by constructor|done].
  - destruct (decide (NodeID res = nodeID n)) as [Hid|Hid].
    + split; [done|]. by inversion 1.
    + rewrite IH. split; [by constructor|by inversion 1].
Qed.

(** The two loops are the same loop. *)
Lemma DeleteNetResource_range_eq n resources :
  DeleteNetResource_range n resources = ApplyNetResource_range n resources.
Proof. induction resources as [|res rest IH]; simpl; [done|]. by rewrite IH. Qed.

Lemma range_Exists n resources :
  Exists (λ res, NodeID res = nodeID n) resources →
  is_Some (ApplyNetResource_range n resources).
Proof.
  induction 1 as [res rest Hid|res rest _ IH]; simpl; case_decide; by eauto.
Qed.

(** C10: when several entries of [Resources] carry this node's identity,
    [ApplyNetResource] and [DeleteNetResource] both work on the first of
    them in list order (every entry before it belongs to another node),
    hence on the same resource. *)
Theorem first_match_selected n network :
  Exists (λ res, NodeID res = nodeID n) (Resources network) →
  ∃ before resource after,
    Resources network = before ++ resource :: after
    ∧ Forall (λ res, NodeID res ≠ nodeID n) before
    ∧ NodeID resource = nodeID n
    ∧ (∀ w, ApplyNetResource n network w
            = applyNetResource (storageDir n) (NetID network) resource
                (AllocationNR network) w)
    ∧ (∀ w, DeleteNetResource n network w
            = deleteNetResource resource (AllocationNR network) w).
Proof.
  intros [resource Hrange]%range_Exists.
  pose proof Hrange as (before & after & Heq & Hbefore & Hid)%ApplyNetResource_range_Some.
  exists before, resource, after. repeat split; try done.
  - intros w. unfold ApplyNetResource. by rewrite Hrange.
  - intros w. unfold DeleteNetResource. by rewrite DeleteNetResource_range_eq, Hrange.
Qed.

(** C2: when no entry of [Resources] carries this node's identity,
    [ApplyNetResource] and [DeleteNetResource] return the error "not
    network resource for this node" and leave the world as it was: no
    primitive is called and the kernel state, key files included, is
    untouched. *)
Theorem no_local_resource n network w :
  Forall (λ res, NodeID res ≠ nodeID n) (Resources network) →
  ApplyNetResource n network w
    = (Err ("not network resource for this node: " +:+ ID (nodeID n)), w)
  ∧ DeleteNetResource n network w
    = (Err ("not network resource for this node: " +:+ ID (nodeID n)), w).
Proof.
  intros Hnone%ApplyNetResource_range_None.
  unfold ApplyNetResource, DeleteNetResource. split.
  - by rewrite Hnone.
  - by rewrite DeleteNetResource_range_eq, Hnone.
Qed.

(** ** The calls of each function *)

Lemma createNetworkResource_calls netID resource allocNr w :
  ∃ l, calls (createNetworkResource netID resource allocNr w).2 = calls w ++ l
       ∧ Forall is_builder_call l
       ∧ Forall (derived (Prefix resource) allocNr) l.
Proof.
  unfold createNetworkResource, createNetworkResource_handler. run.
  all: calls_done.
Qed.

Lemma deleteNetResource_calls resource allocNr w :
  ∃ l, calls (deleteNetResource resource allocNr w).2 = calls w ++ l
       ∧ Forall (derived (Prefix resource) allocNr) l.
Proof. unfold deleteNetResource. run. all: calls_done. Qed.

Lemma configureWG_key_calls storageDir resource allocNr w :
  let nibble := NewNibble (Prefix resource) allocNr in
  ∃ l, calls (configureWG_key (filepath_Join storageDir (Hex nibble)) w).2 = calls w ++ l
       ∧ Forall is_key_call l
       ∧ Forall (derived (Prefix resource) allocNr) l.
Proof. unfold configureWG_key. run. all: calls_done. Qed.

Lemma configureWG_configure_calls key resource allocNr w :
  let nibble := NewNibble (Prefix resource) allocNr in
  ∃ l, calls (configureWG_configure key resource nibble w).2 = calls w ++ l
       ∧ Forall is_mesh_call l
       ∧ Forall (derived (Prefix resource) allocNr) l
       ∧ ∀ peers, peers ∈ configured_peers l → configureWG_peers nibble resource = Ok peers.
Proof.
  unfold configureWG_configure, configureWG_handler. run.
  all: calls_done.
  all: try (intros ? ?%elem_of_nil; done).
  all: try (intros ? ?%list_elem_of_singleton; by subst).
Qed.

(** ** The apply sequence *)

(** [applyNetResource], step by step *)
Lemma applyNetResource_steps storageDir netID resource allocNr w :
  let nibble := NewNibble (Prefix resource) allocNr in
  applyNetResource storageDir netID resource allocNr w =
  match createNetworkResource netID resource allocNr w with
  | (Err e, w1) => (Err e, w1)
  | (Ok _, w1) =>
      match configureWG_key (filepath_Join storageDir (Hex nibble)) w1 with
      | (Err (_, e), w2) => (Err e, w2)
      | (Ok key, w2) =>
          match configureWG_configure key resource nibble w2 with
          | (Err (_, e), w3) => (Err e, w3)
          | (Ok _, w3) => (Ok (), w3)
          end
      end
  end.
Proof.
  unfold applyNetResource, configureWG, bind, map_err, ret; simpl.
  by repeat case_match; simplify_eq/=.
Qed.

(** C1: for a network with an entry of this node, [ApplyNetResource] runs
    the create sequence, then the key step, then the configuration of the
    tunnel, on the entry it selected.  The calls of the three steps follow
    one another in the list of calls; the result is the first error met,
    and the world it is returned with is the one the failing step left,
    so that no later step has run: an error of [createNetworkResource]
    comes back before any call of [configureWG]. *)
Theorem apply_sequence n network w :
  Exists (λ res, NodeID res = nodeID n) (Resources network) →
  ∃ resource,
    resource ∈ Resources network ∧ NodeID resource = nodeID n ∧
    let allocNr := AllocationNR network in
    let nibble := NewNibble (Prefix resource) allocNr in
    let storagePath := filepath_Join (storageDir n) (Hex nibble) in
    let '(r1, w1) := createNetworkResource (NetID network) resource allocNr w in
    (∃ l1, calls w1 = calls w ++ l1 ∧ Forall is_builder_call l1) ∧
    match r1 with
    | Err e => ApplyNetResource n network w = (Err e, w1)
    | Ok _ =>
        let '(r2, w2) := configureWG_key storagePath w1 in
        (∃ l2, calls w2 = calls w1 ++ l2 ∧ Forall is_key_call l2) ∧
        match r2 with
        | Err (_, e) => ApplyNetResource n network w = (Err e, w2)
        | Ok key =>
            let '(r3, w3) := configureWG_configure key resource nibble w2 in
            (∃ l3, calls w3 = calls w2 ++ l3 ∧ Forall is_mesh_call l3) ∧
            ApplyNetResource n network w
              = (match r3 with Ok _ => Ok () | Err (_, e) => Err e end, w3)
        end
    end.
Proof.
  intros [resource Hrange]%range_Exists.
  pose proof Hrange as (before & after & Heq & _ & Hid)%ApplyNetResource_range_Some.
  exists resource. split; [rewrite Heq; set_solver|]. split; [done|].
  intros allocNr nibble storagePath.
  unfold ApplyNetResource. rewrite Hrange, applyNetResource_steps.
  fold allocNr nibble storagePath.
  destruct (createNetworkResource_calls (NetID network) resource allocNr w)
    as (l1 & Hl1 & Hb1 & _).
  destruct (createNetworkResource _ _ _ w) as [[[]|e1] w1]; simpl in Hl1;
    (split; [by eauto|]); [|done].
  destruct (configureWG_key_calls (storageDir n) resource allocNr w1)
    as (l2 & Hl2 & Hb2 & _).
  fold nibble storagePath in Hl2.
  destruct (configureWG_key storagePath w1) as [[key|[key e2]] w2]; simpl in Hl2;
    (split; [by eauto|]); [|done].
  destruct (configureWG_configure_calls key resource allocNr w2)
    as (l3 & Hl3 & Hb3 & _).
  fold nibble in Hl3.
  by destruct (configureWG_configure key resource nibble w2) as [[key'|[key' e3]] w3];
    simpl in Hl3; (split; [by eauto|]).
Qed.

(** ** Names and addresses *)

Lemma createNetworkResource_first netID resource allocNr w :
  ∃ l, calls (createNetworkResource netID resource allocNr w).2
       = calls w ++ Bridge_New (BridgeName (NewNibble (Prefix resource) allocNr)) :: l.
Proof.
  unfold createNetworkResource, createNetworkResource_handler. run.
  all: rewrite <- ?app_assoc; simpl; by eexists.
Qed.

(** [deleteNetResource], step by step *)
Lemma deleteNetResource_steps resource allocNr w :
  let nibble := NewNibble (Prefix resource) allocNr in
  deleteNetResource resource allocNr w =
  match K_bridge_Delete (BridgeName nibble) (kernel w) with
  | (Err e, k) =>
      (Err e, {| calls := calls w ++ [Bridge_Delete (BridgeName nibble)]; kernel := k |})
  | (Ok _, k) =>
      let '(r, k') := K_namespace_Delete (NetworkName nibble) k in
      (r, {| calls := calls w ++ [Bridge_Delete (BridgeName nibble);
                                  Namespace_Delete (NetworkName nibble)];
             kernel := k' |})
  end.
Proof.
  unfold deleteNetResource. run; by rewrite <- ?app_assoc.
Qed.

Lemma deleteNetResource_first resource allocNr w :
  ∃ l, calls (deleteNetResource resource allocNr w).2
       = calls w ++ Bridge_Delete (BridgeName (NewNibble (Prefix resource) allocNr)) :: l.
Proof.
  rewrite deleteNetResource_steps. simpl. repeat case_match; simpl; by eexists.
Qed.

Lemma ApplyNetResource_calls n network resource w :
  ApplyNetResource_range n (Resources network) = Some resource →
  ∃ l, calls (ApplyNetResource n network w).2 = calls w ++ l
       ∧ Forall (derived (Prefix resource) (AllocationNR network)) l.
Proof.
  intros Hrange. unfold ApplyNetResource. rewrite Hrange, applyNetResource_steps.
  destruct (createNetworkResource_calls (NetID network) resource (AllocationNR network) w)
    as (l1 & Hl1 & _ & Hd1).
  destruct (createNetworkResource _ _ _ w) as [[[]|e1] w1]; simpl in *; [|by eauto].
  destruct (configureWG_key_calls (storageDir n) resource (AllocationNR network) w1)
    as (l2 & Hl2 & _ & Hd2). simpl in Hl2.
  destruct (configureWG_key _ w1) as [[key|[key e2]] w2]; simpl in *.
  - destruct (configureWG_configure_calls key resource (AllocationNR network) w2)
      as (l3 & Hl3 & _ & Hd3 & _). simpl in Hl3.
    exists (l1 ++ l2 ++ l3). rewrite !Forall_app.
    destruct (configureWG_configure _ _ _ w2) as [[?|[? ?]] w3]; simpl in *;
      by rewrite Hl3, Hl2, Hl1, <- !app_assoc.
  - exists (l1 ++ l2). by rewrite Forall_app, Hl2, Hl1, <- !app_assoc.
Qed.

Lemma DeleteNetResource_calls n network resource w :
  ApplyNetResource_range n (Resources network) = Some resource →
  ∃ l, calls (DeleteNetResource n network w).2 = calls w ++ l
       ∧ Forall (derived (Prefix resource) (AllocationNR network)) l.
Proof.
  intros Hrange. unfold DeleteNetResource.
  rewrite DeleteNetResource_range_eq, Hrange.
  apply deleteNetResource_calls.
Qed.

(** C7: the names are regenerated from [(Prefix, AllocationNR)] alone.
    Whatever the worlds they run in and whatever the other fields of the
    resource, [createNetworkResource] starts by creating the bridge of
    the name that [deleteNetResource] starts by deleting, and every name
    and address in the calls of both is the one derived from the Nibble
    of the prefix and the allocation number.  The same holds of all the
    calls of apply, then delete, then apply on one network. *)
Theorem names_regenerable netID resource resource' allocNr w w' l l' :
  Prefix resource' = Prefix resource →
  calls (createNetworkResource netID resource allocNr w).2 = calls w ++ l →
  calls (deleteNetResource resource' allocNr w').2 = calls w' ++ l' →
  let nibble := NewNibble (Prefix resource) allocNr in
  head l = Some (Bridge_New (BridgeName nibble))
  ∧ head l' = Some (Bridge_Delete (BridgeName nibble))
  ∧ Forall (derived (Prefix resource) allocNr) (l ++ l')
  ∧ ∀ n network w0 l0,
      ApplyNetResource_range n (Resources network) = Some resource →
      AllocationNR network = allocNr →
      calls (ApplyNetResource n network
               (DeleteNetResource n network (ApplyNetResource n network w0).2).2).2
        = calls w0 ++ l0 →
      Forall (derived (Prefix resource) allocNr) l0.
Proof.
  intros Hprefix Hl Hl' nibble.
  destruct (createNetworkResource_first netID resource allocNr w) as (t & Ht).
  destruct (createNetworkResource_calls netID resource allocNr w) as (m & Hm & _ & Hd).
  destruct (deleteNetResource_first resource' allocNr w') as (t' & Ht').
  destruct (deleteNetResource_calls resource' allocNr w') as (m' & Hm' & Hd').
  rewrite Hprefix in Ht', Hd'.
  rewrite Hl in Ht, Hm. rewrite Hl' in Ht', Hm'. simplify_list_eq.
  repeat split; [by apply (Forall_app _ (_ :: _) (_ :: _))|].
  intros n network w0 l0 Hrange <- Hl0.
  destruct (ApplyNetResource_calls n network resource w0 Hrange) as (a1 & Ha1 & Hd1).
  destruct (DeleteNetResource_calls n network resource
              (ApplyNetResource n network w0).2 Hrange) as (a2 & Ha2 & Hd2).
  destruct (ApplyNetResource_calls n network resource
              (DeleteNetResource n network (ApplyNetResource n network w0).2).2 Hrange)
    as (a3 & Ha3 & Hd3).
  rewrite Ha3, Ha2, Ha1, <- !app_assoc in Hl0. simplify_list_eq.
  by rewrite !Forall_app.
Qed.

(** C9: a create that succeeds assigns two addresses, in this order and
    both to the link found under the name of the veth end left in the
    namespace: the resource's [Prefix], as it is, and the network parsed
    from "10.a.b.1/24" with its IP set to 10.a.b.1, [(a, b)] being
    [ToV4] of the Nibble.  When [ToV4] or the parsing fails, the create
    that got as far returns that error, having assigned no address. *)
Theorem veth_addresses netID resource allocNr :
  let nibble := NewNibble (Prefix resource) allocNr in
  let cidr (a b : Z) := "10." +:+ fmt_d a +:+ "." +:+ fmt_d b +:+ ".1/24" in
  (∀ w w' l,
     createNetworkResource netID resource allocNr w = (Ok (), w') →
     calls w' = calls w ++ l →
     ∃ a b ip ipnetv4 link,
       ToV4 nibble = Ok (a, b)
       ∧ net_ParseCIDR (cidr a b) = Ok (ip, ipnetv4)
       ∧ addresses_added l
         = [ (link, Prefix resource);
             (link, {| net.IPNet_IP := ip; net.IPNet_Mask := net.IPNet_Mask ipnetv4 |}) ]
       ∧ ∃ hostNS hostVeth containerVeth k k' k'',
           K_ip_SetupVeth (VethName nibble) 1500 hostNS k = (Ok (hostVeth, containerVeth), k')
           ∧ K_netlink_LinkByName (net.Name containerVeth) k' = (Ok link, k''))
  ∧ (∀ w e br k1 netns k2 hostNS k3 hostVeth containerVeth k4 link k5,
       (ToV4 nibble = Err e
        ∨ ∃ a b, ToV4 nibble = Ok (a, b) ∧ net_ParseCIDR (cidr a b) = Err e) →
       K_bridge_New (BridgeName nibble) (kernel w) = (Ok br, k1) →
       K_namespace_Create (NetworkName nibble) k1 = (Ok netns, k2) →
       K_NetNS_Do_enter netns k2 = (Ok hostNS, k3) →
       K_ip_SetupVeth (VethName nibble) 1500 hostNS k3
         = (Ok (hostVeth, containerVeth), k4) →
       K_netlink_LinkByName (net.Name containerVeth) k4 = (Ok link, k5) →
       createNetworkResource netID resource allocNr w
       = (Err e,
          {| calls := calls w ++ [ Bridge_New (BridgeName nibble);
                                   Namespace_Create (NetworkName nibble);
                                   NetNS_Do netns;
                                   Ip_SetupVeth (VethName nibble) 1500 hostNS;
                                   Netlink_LinkByName (net.Name containerVeth) ];
             kernel := K_NetNS_Do_leave hostNS k5 |})).
Proof.
  intros nibble cidr. split.
  - intros w w' l Hrun Hl. revert Hrun.
    unfold createNetworkResource, createNetworkResource_handler,
      createNetworkResource_ipnetv4.
    fold nibble. run.
    all: intros; simplify_eq/=.
    rewrite <- !app_assoc in Hl. simplify_list_eq.
    repeat esplit; eauto.
  - intros w e br k1 netns k2 hostNS k3 hostVeth containerVeth k4 link k5
      Hfail Hbr Hns Hdo Hveth Hlink.
    unfold createNetworkResource, createNetworkResource_handler,
      createNetworkResource_ipnetv4.
    fold nibble. unfold_prims. unfold netns_Do, bind, lift, invoke. simpl.
    rewrite Hbr; simpl. rewrite Hns; simpl. rewrite Hdo; simpl.
    rewrite Hveth; simpl. rewrite Hlink; simpl.
    destruct Hfail as [->|(a & b & -> & Hparse)].
    + by rewrite <- !app_assoc.
    + fold (cidr a b). rewrite Hparse. by rewrite <- !app_assoc.
Qed.

(** ** The peer list *)

(** The loop keeps the length of the slice and leaves the slots below its
    index alone. *)
Lemma configureWG_range_below nibble connected : ∀ i peers out,
  configureWG_range nibble i connected peers = Ok out →
  length out = length peers ∧ ∀ j, j < i → out !! j = peers !! j.
Proof.
  induction connected as [|peer rest IH]; intros i peers out; simpl.
  - by intros [= ->].
  - case_decide.
    + intros [Hlen Hlow]%IH. split; [done|]. intros j Hj. apply Hlow. lia.
    + destruct (ToV4 nibble) as [[a b]|e]; [|done].
      intros [Hlen Hlow]%IH. rewrite length_insert in Hlen. split; [done|].
      intros j Hj. rewrite Hlow by lia. apply list_lookup_insert_ne. lia.
Qed.

(** What the loop leaves in the slot of each peer: an entry for a peer of
    the tunnel type, and what was there for any other. *)
Lemma configureWG_range_slot nibble connected : ∀ i peers out k peer,
  configureWG_range nibble i connected peers = Ok out →
  connected !! k = Some peer →
  i + k < length peers →
  if decide (Type_ peer = modules_ConnTypeWireguard)
  then ∃ a b, ToV4 nibble = Ok (a, b) ∧ out !! (i + k) = Some (peer_entry nibble a b peer)
  else out !! (i + k) = peers !! (i + k).
Proof.
  induction connected as [|first rest IH]; intros i peers out k peer; simpl; [done|].
  intros Hrun Hpeer Hlen. destruct k as [|k]; simpl in Hpeer.
  - injection Hpeer as ->. rewrite Nat.add_0_r in *.
    destruct (decide (Type_ peer = modules_ConnTypeWireguard)) as [Hty|Hty].
    + rewrite decide_False in Hrun by (by intros ?).
      destruct (ToV4 nibble) as [[a b]|e]; [|done].
      exists a, b. split; [done|].
      apply configureWG_range_below in Hrun as [_ Hlow].
      rewrite Hlow by lia. by apply list_lookup_insert_eq.
    + rewrite decide_True in Hrun by done.
      apply configureWG_range_below in Hrun as [_ Hlow]. apply Hlow. lia.
  - replace (i + S k) with (S i + k) in * by lia.
    destruct (decide (Type_ first ≠ modules_ConnTypeWireguard)).
    + by apply (IH (S i) peers).
    + destruct (ToV4 nibble) as [[a b]|e]; [|done].
      specialize (IH (S i) _ out k peer Hrun Hpeer).
      rewrite length_insert in IH. specialize (IH Hlen).
      case_decide; [done|].
      rewrite IH. apply list_lookup_insert_ne. lia.
Qed.

(** The list [configureWG] builds has one slot per connected peer, the
    zero value in the slot of every peer that is not of the tunnel type. *)
Lemma configureWG_peers_slots nibble resource peers :
  configureWG_peers nibble resource = Ok peers →
  length peers = length (Connected resource)
  ∧ ∀ i peer, Connected resource !! i = Some peer →
      if decide (Type_ peer = modules_ConnTypeWireguard)
      then ∃ a b, ToV4 nibble = Ok (a, b) ∧ peers !! i = Some (peer_entry nibble a b peer)
      else peers !! i = Some wireguard_Peer_zero.
Proof.
  unfold configureWG_peers. intros Hrun. split.
  - apply configureWG_range_below in Hrun as [-> _]. apply length_replicate.
  - intros i peer Hpeer.
    pose proof (configureWG_range_slot _ _ _ _ _ i peer Hrun Hpeer) as Hslot.
    rewrite length_replicate in Hslot. simpl in Hslot.
    apply lookup_lt_Some in Hpeer as Hi. specialize (Hslot Hi).
    case_decide; [done|]. rewrite Hslot. by apply lookup_replicate_2.
Qed.

Lemma configureWG_calls storageDir resource allocNr w l peers :
  calls (configureWG storageDir resource allocNr w).2 = calls w ++ l →
  peers ∈ configured_peers l →
  configureWG_peers (NewNibble (Prefix resource) allocNr) resource = Ok peers.
Proof.
  unfold configureWG, bind. intros Hl Hpeers.
  destruct (configureWG_key_calls storageDir resource allocNr w) as (l1 & Hl1 & Hk1 & _).
  simpl in Hl1.
  assert (configured_peers l1 = []) as Hnone.
  { clear -Hk1. induction Hk1 as [|c ? Hc]; [done|]. by destruct c. }
  destruct (configureWG_key _ w) as [[key|[key e]] w1]; simpl in *.
  - destruct (configureWG_configure_calls key resource allocNr w1)
      as (l2 & Hl2 & _ & _ & Hconf). simpl in Hl2.
    rewrite Hl2, Hl1, <- app_assoc in Hl. simplify_list_eq.
    apply Hconf. unfold configured_peers in *.
    by rewrite omap_app, Hnone in Hpeers.
  - rewrite Hl1 in Hl. simplify_list_eq. rewrite Hnone in Hpeers. by apply elem_of_nil in Hpeers.
Qed.

(** C6: in every peer list that [configureWG] hands to [Configure], the
    entry of each connected peer of the tunnel type carries the two
    allowed IPs fe80::<Hex()>/128 and 172.16.a.b/32 of this resource's own
    Nibble, [(a, b)] being its [ToV4]; nothing of the peer enters them, so
    the entries of any two such peers carry the same allowed IPs. *)
Theorem allowed_ips_of_local_nibble storageDir resource allocNr w l peers :
  let nibble := NewNibble (Prefix resource) allocNr in
  calls (configureWG storageDir resource allocNr w).2 = calls w ++ l →
  peers ∈ configured_peers l →
  (∀ i peer,
     Connected resource !! i = Some peer →
     Type_ peer = modules_ConnTypeWireguard →
     ∃ a b entry,
       ToV4 nibble = Ok (a, b)
       ∧ peers !! i = Some entry
       ∧ PublicKey entry = Key (Connection peer)
       ∧ Endpoint entry = endpoint peer
       ∧ AllowedIPs entry
         = [ "fe80::" +:+ Hex nibble +:+ "/128";
             "172.16." +:+ fmt_d a +:+ "." +:+ fmt_d b +:+ "/32" ])
  ∧ (∀ i j peer peer' entry entry',
       Connected resource !! i = Some peer →
       Type_ peer = modules_ConnTypeWireguard →
       Connected resource !! j = Some peer' →
       Type_ peer' = modules_ConnTypeWireguard →
       peers !! i = Some entry →
       peers !! j = Some entry' →
       AllowedIPs entry = AllowedIPs entry').
Proof.
  intros nibble Hl Hpeers.
  pose proof (configureWG_calls _ _ _ _ _ _ Hl Hpeers) as Hbuilt.
  apply configureWG_peers_slots in Hbuilt as [_ Hslots]. fold nibble in Hslots.
  assert (∀ i peer,
            Connected resource !! i = Some peer →
            Type_ peer = modules_ConnTypeWireguard →
            ∃ a b, ToV4 nibble = Ok (a, b)
                   ∧ peers !! i = Some (peer_entry nibble a b peer)) as Hentry.
  { intros i peer Hpeer Hty. specialize (Hslots i peer Hpeer).
    by rewrite decide_True in Hslots. }
  split.
  - intros i peer Hpeer Hty.
    destruct (Hentry i peer Hpeer Hty) as (a & b & Hab & Hi).
    by exists a, b, (peer_entry nibble a b peer).
  - intros i j peer peer' entry entry' Hpeer Hty Hpeer' Hty' Hi Hj.
    destruct (Hentry i peer Hpeer Hty) as (a & b & Hab & Hi').
    destruct (Hentry j peer' Hpeer' Hty') as (a' & b' & Hab' & Hj').
    rewrite Hi in Hi'. rewrite Hj in Hj'. rewrite Hab in Hab'.
    by simplify_eq/=.
Qed.

(** ** The endpoint *)

(** [endpoint] puts the address in brackets whenever [To16] is not nil,
    that is for a slice of 4 bytes as for one of 16. *)
Lemma endpoint_To16_cases peer :
  let ip := IP (Connection peer) in
  let port := fmt_d (Port (Connection peer)) in
  endpoint peer
  = if bool_decide (length ip = 4 ∨ length ip = 16)
    then "[" +:+ net.String ip +:+ "]:" +:+ port
    else net.String ip +:+ ":" +:+ port.
Proof.
  intros ip port. unfold endpoint. fold ip port. unfold net.To16, net.IPv6len.
  destruct ip as [|? [|? [|? [|? [|? rest]]]]]; simpl; try done.
  destruct (Nat.eqb_spec (length rest) 11) as [Hlen|Hlen].
  - rewrite bool_decide_true; [done|]. right. simpl. lia.
  - rewrite bool_decide_false; [done|]. simpl. lia.
Qed.

End Theorems.

(** ** On the primitives the spec describes *)

Section SpecTheorems.
Context {Hdecl : Declarations} {Hlib : GoLib} {Hnib : NibbleAPI}.
Variable base : Kernel.

Local Abbreviation SK := (spec_kernel base).
Local Abbreviation SWorld := (@World _ SK).

(** The key step on key files: a key found at the path is returned and
    nothing is written; without one, a key is generated, and persisted
    at that path when the generation succeeded. *)
Lemma configureWG_key_files (path : string) (w : SWorld) :
  configureWG_key path w =
  match keyfiles base (kernel w) !! path with
  | Some key =>
      (Ok key, {| calls := calls w ++ [Wireguard_LoadKey path]; kernel := kernel w |})
  | None =>
      let '(r, k) := K_wireguard_GenerateKey (Kernel := base) path (under base (kernel w)) in
      (r, {| calls := calls w ++ [Wireguard_LoadKey path; Wireguard_GenerateKey path];
             kernel :=
               {| under := k;
                  bridges := bridges base (kernel w);
                  namespaces := namespaces base (kernel w);
                  keyfiles := match r with
                              | Ok key => <[path := key]> (keyfiles base (kernel w))
                              | Err _ => keyfiles base (kernel w)
                              end |} |})
  end.
Proof.
  unfold configureWG_key. run.
  all: unfold spec_wireguard_LoadKey, spec_wireguard_GenerateKey, set_under in *.
  all: repeat case_match; simplify_eq/=; rewrite <- ?app_assoc; simpl; congruence.
Qed.

(** Configuring the tunnel touches no key file. *)
Lemma configureWG_configure_files key resource nibble (w : SWorld) :
  keyfiles base (kernel (configureWG_configure key resource nibble w).2)
  = keyfiles base (kernel w).
Proof.
  unfold configureWG_configure, configureWG_handler. run.
  all: unfold through, set_under in *; by repeat case_match; simplify_eq/=.
Qed.

(** One run of [configureWG] on key files. *)
Lemma configureWG_files storageDir resource allocNr (w : SWorld) :
  let nibble := NewNibble (Prefix resource) allocNr in
  let path := filepath_Join storageDir (Hex nibble) in
  let '(r, w') := configureWG storageDir resource allocNr w in
  match keyfiles base (kernel w) !! path with
  | Some key =>
      key_of r = key
      ∧ keyfiles base (kernel w') = keyfiles base (kernel w)
      ∧ ∃ l, calls w' = calls w ++ Wireguard_LoadKey path :: l ∧ Forall is_mesh_call l
  | None =>
      ∃ l, calls w' = calls w ++ Wireguard_LoadKey path :: Wireguard_GenerateKey path :: l
           ∧ Forall is_mesh_call l
           ∧ (keyfiles base (kernel w') = <[path := key_of r]> (keyfiles base (kernel w))
              ∨ keyfiles base (kernel w') = keyfiles base (kernel w)
                ∧ ∃ key e, r = Err (key, e))
  end.
Proof.
  intros nibble path. unfold configureWG. fold nibble path. unfold bind.
  rewrite configureWG_key_files.
  destruct (keyfiles base (kernel w) !! path) as [key|] eqn:Hfile.
  - pose proof (configureWG_configure_files key resource nibble
                  {| calls := calls w ++ [Wireguard_LoadKey path]; kernel := kernel w |})
      as Hfiles.
    destruct (configureWG_configure_calls key resource allocNr
                {| calls := calls w ++ [Wireguard_LoadKey path]; kernel := kernel w |})
      as (l & Hl & Hmesh & _). fold nibble in Hl.
    destruct (configureWG_configure key resource nibble _) as [r w'] eqn:Hrun.
    simpl in *. rewrite <- app_assoc in Hl. split; [|by eauto].
    revert Hrun. unfold configureWG_configure. run; by intros; simplify_eq/=.
  - destruct (K_wireguard_GenerateKey path _) as [[key|[key e]] k]; [|by eauto 10].
    match goal with
    | |- context [configureWG_configure key resource nibble ?w0] =>
        pose proof (configureWG_configure_files key resource nibble w0) as Hfiles;
        destruct (configureWG_configure_calls key resource allocNr w0)
          as (l & Hl & Hmesh & _); fold nibble in Hl;
        destruct (configureWG_configure key resource nibble w0) as [r w'] eqn:Hrun
    end.
    simpl in *. rewrite <- app_assoc in Hl. exists l. split; [done|]. split; [done|].
    left. rewrite Hfiles. f_equal.
    revert Hrun. unfold configureWG_configure. run; by intros; simplify_eq/=.
Qed.

(** C3: [configureWG] first loads the key from the path
    [filepath.Join(storageDir, nibble.Hex())]; it generates one, for that
    same path, only when the load failed, which on the primitives of the
    spec is when no key is persisted there.  No key file that exists is
    changed by a run.  Once a key is persisted at the path after a run,
    that run returned it, a second run returns it again, without
    generating anything and leaving the key files as they are. *)
Theorem key_obtained_once storageDir resource allocNr (w : SWorld) :
  let nibble := NewNibble (Prefix resource) allocNr in
  let path := filepath_Join storageDir (Hex nibble) in
  let first := configureWG storageDir resource allocNr w in
  let second := configureWG storageDir resource allocNr first.2 in
  (∃ l1, calls first.2 = calls w ++ Wireguard_LoadKey path :: l1
         ∧ ∀ c, c ∈ l1 → is_key_call c →
                c = Wireguard_GenerateKey path
                ∧ keyfiles base (kernel w) !! path = None)
  ∧ (∀ p key, keyfiles base (kernel w) !! p = Some key →
              keyfiles base (kernel first.2) !! p = Some key)
  ∧ (∀ key, keyfiles base (kernel first.2) !! path = Some key →
       key_of first.1 = key ∧ key_of second.1 = key
       ∧ keyfiles base (kernel second.2) = keyfiles base (kernel first.2)
       ∧ ∃ l2, calls second.2 = calls first.2 ++ Wireguard_LoadKey path :: l2
               ∧ Forall is_mesh_call l2).
Proof.
  intros nibble path first second.
  pose proof (configureWG_files storageDir resource allocNr w) as Hrun1.
  pose proof (configureWG_files storageDir resource allocNr first.2) as Hrun2.
  fold first in Hrun1. fold second in Hrun2.
  destruct first as [r1 w1], second as [r2 w2].
  simpl in *. fold nibble path in Hrun1, Hrun2.
  assert (∀ (l : list (@Call _ SK)) c,
            Forall is_mesh_call l → c ∈ l → is_key_call c → False) as Hmesh.
  { intros l c Hl Hc Hkey. rewrite Forall_forall in Hl. apply Hl in Hc. by destruct c. }
  destruct (keyfiles base (kernel w) !! path) as [key0|] eqn:Hfile.
  - destruct Hrun1 as (Hr1 & Hfiles & l1 & Hl1 & Hm1). rewrite Hfiles in *.
    rewrite Hfile in Hrun2. destruct Hrun2 as (Hr2 & Hfiles2 & l2 & Hl2 & Hm2).
    split; [|split].
    + exists l1. split; [done|]. intros c Hc Hkey. by destruct (Hmesh l1 c).
    + done.
    + intros key ?. simplify_eq. eauto 10.
  - destruct Hrun1 as (l1 & Hl1 & Hm1 & Hfiles). split; [|split].
    + eexists. split; [done|]. intros c [->|Hc]%elem_of_cons Hkey; [done|].
      by destruct (Hmesh l1 c).
    + intros p key Hp. destruct Hfiles as [->|[-> _]]; [|done].
      rewrite lookup_insert_ne; [done|]. by intros ->; simplify_eq.
    + intros key Hkey. rewrite Hkey in Hrun2.
      destruct Hrun2 as (Hr2 & Hfiles2 & l2 & Hl2 & Hm2).
      destruct Hfiles as [Hgen|[Hsame _]].
      * rewrite Hgen, lookup_insert_eq in Hkey. simplify_eq. eauto 10.
      * rewrite Hsame in Hkey. by simplify_eq.
Qed.

(** C8: [deleteNetResource] deletes the bridge under its name, then the
    namespace under its name.  An error of the bridge deletion is
    returned as it is, and the namespace deletion is then not called.  On
    the primitives of the spec, with no bridge of that name the result is
    an error, with nothing changed and the namespace kept; and with the
    bridge deleted but no namespace of that name the result is an error
    too. *)
Theorem delete_sequence resource allocNr (w : SWorld) :
  let nibble := NewNibble (Prefix resource) allocNr in
  let bridgeName := BridgeName nibble in
  let netnsName := NetworkName nibble in
  deleteNetResource resource allocNr w
  = match K_bridge_Delete (Kernel := SK) bridgeName (kernel w) with
    | (Err e, k) => (Err e, {| calls := calls w ++ [Bridge_Delete bridgeName]; kernel := k |})
    | (Ok _, k) =>
        let '(r, k') := K_namespace_Delete (Kernel := SK) netnsName k in
        (r, {| calls := calls w ++ [Bridge_Delete bridgeName; Namespace_Delete netnsName];
               kernel := k' |})
    end
  ∧ (bridgeName ∉ bridges base (kernel w) →
     ∃ e, deleteNetResource resource allocNr w
          = (Err e, {| calls := calls w ++ [Bridge_Delete bridgeName];
                       kernel := kernel w |}))
  ∧ (∀ k, K_bridge_Delete (Kernel := SK) bridgeName (kernel w) = (Ok (), k) →
          netnsName ∉ namespaces base k →
          ∃ e, deleteNetResource resource allocNr w
               = (Err e, {| calls := calls w ++ [Bridge_Delete bridgeName;
                                                 Namespace_Delete netnsName];
                            kernel := k |})).
Proof.
  intros nibble bridgeName netnsName.
  rewrite deleteNetResource_steps. fold nibble bridgeName netnsName.
  split; [done|]. split.
  - intros Habsent. simpl. unfold spec_bridge_Delete.
    rewrite decide_False by done. by eexists.
  - intros k -> Habsent. simpl. unfold spec_namespace_Delete.
    rewrite decide_False by done. by eexists.
Qed.

End SpecTheorems.

(** ** The code on concrete inputs *)

Section Examples.
Import Demo.
Local Existing Instances declarations golib nibble kern.

(** C4, on a resource connected to a peer of the tunnel type and to a peer
    of another type: the list that [ApplyNetResource] hands to
    [Configure] has two entries, and the second, the slot of the peer that
    the loop skipped, is the zero value of [wireguard.Peer]. *)
Theorem skipped_peer_keeps_its_slot :
  Connected resource = [tunnel_peer; other_peer]
  ∧ configured_peers (calls (ApplyNetResource node1 network world).2)
    = [ [ {| PublicKey := "peer-public-key";
             Endpoint := "[2001:db8::1]:51820";
             AllowedIPs := ["fe80::0000/128"; "172.16.0.0/32"] |};
          wireguard_Peer_zero ] ].
Proof. split; [reflexivity|]. vm_compute. reflexivity. Qed.

(** C5, on the address 10.0.0.5 and the port 51820: [endpoint] gives
    "[10.0.0.5]:51820", with brackets, for the slice of four bytes as for
    the slice of sixteen that [net.ParseIP] returns; 2001:db8::1 gives
    "[2001:db8::1]:51820". *)
Theorem endpoint_brackets_ipv4 :
  endpoint ipv4_peer = "[10.0.0.5]:51820"
  ∧ endpoint {| Type_ := Type_ ipv4_peer;
                Connection := {| IP := net.IPv4 x0a x00 x00 x05; Port := 51820;
                                 Key := Key (Connection ipv4_peer) |} |}
    = "[10.0.0.5]:51820"
  ∧ endpoint tunnel_peer = "[2001:db8::1]:51820".
Proof. repeat split; vm_compute; reflexivity. Qed.

Lemma first_match_selected_witness :
  Exists (λ res, NodeID res = nodeID node1) (Resources network)
  ∧ ∃ before resource after,
      Resources network = before ++ resource :: after
      ∧ Forall (λ res, NodeID res ≠ nodeID node1) before
      ∧ NodeID resource = nodeID node1
      ∧ (∀ w, ApplyNetResource node1 network w
              = applyNetResource (storageDir node1) (NetID network) resource
                  (AllocationNR network) w)
      ∧ (∀ w, DeleteNetResource node1 network w
              = deleteNetResource resource (AllocationNR network) w).
Proof.
  assert (Exists (λ res, NodeID res = nodeID node1) (Resources network)) as Hex.
  { apply Exists_cons_tl, Exists_cons_hd. reflexivity. }
  split; [exact Hex|]. exact (first_match_selected node1 network Hex).
Defined.

Lemma no_local_resource_witness :
  Forall (λ res, NodeID res ≠ nodeID node1) (Resources foreign_network)
  ∧ ApplyNetResource node1 foreign_network world
    = (Err "not network resource for this node: node-1", world)
  ∧ DeleteNetResource node1 foreign_network world
    = (Err "not network resource for this node: node-1", world).
Proof.
  assert (Forall (λ res, NodeID res ≠ nodeID node1) (Resources foreign_network)) as Hall.
  { constructor; [discriminate|constructor]. }
  split; [exact Hall|]. exact (no_local_resource node1 foreign_network world Hall).
Defined.

Lemma apply_sequence_witness :
  Exists (λ res, NodeID res = nodeID node1) (Resources network)
  ∧ ∃ resource,
      resource ∈ Resources network ∧ NodeID resource = nodeID node1 ∧
      let allocNr := AllocationNR network in
      let nibble := NewNibble (Prefix resource) allocNr in
      let storagePath := filepath_Join (storageDir node1) (Hex nibble) in
      let '(r1, w1) := createNetworkResource (NetID network) resource allocNr world in
      (∃ l1, calls w1 = calls world ++ l1 ∧ Forall is_builder_call l1) ∧
      match r1 with
      | Err e => ApplyNetResource node1 network world = (Err e, w1)
      | Ok _ =>
          let '(r2, w2) := configureWG_key storagePath w1 in
          (∃ l2, calls w2 = calls w1 ++ l2 ∧ Forall is_key_call l2) ∧
          match r2 with
          | Err (_, e) => ApplyNetResource node1 network world = (Err e, w2)
          | Ok key =>
              let '(r3, w3) := configureWG_configure key resource nibble w2 in
              (∃ l3, calls w3 = calls w2 ++ l3 ∧ Forall is_mesh_call l3) ∧
              ApplyNetResource node1 network world
                = (match r3 with Ok _ => Ok () | Err (_, e) => Err e end, w3)
          end
      end.
Proof.
  assert (Exists (λ res, NodeID res = nodeID node1) (Resources network)) as Hex.
  { apply Exists_cons_tl, Exists_cons_hd. reflexivity. }
  split; [exact Hex|]. exact (apply_sequence node1 network world Hex).
Defined.

Lemma names_regenerable_witness :
  let l := calls (createNetworkResource "net-1" resource 0 world).2 in
  let l' := calls (deleteNetResource renamed 0 world).2 in
  let nibble := NewNibble (Prefix resource) 0 in
  (Prefix renamed = Prefix resource
   ∧ calls (createNetworkResource "net-1" resource 0 world).2 = calls world ++ l
   ∧ calls (deleteNetResource renamed 0 world).2 = calls world ++ l')
  ∧ head l = Some (Bridge_New (BridgeName nibble))
  ∧ head l' = Some (Bridge_Delete (BridgeName nibble))
  ∧ Forall (derived (Prefix resource) 0) (l ++ l')
  ∧ ∀ n network w0 l0,
      ApplyNetResource_range n (Resources network) = Some resource →
      AllocationNR network = 0%Z →
      calls (ApplyNetResource n network
               (DeleteNetResource n network (ApplyNetResource n network w0).2).2).2
        = calls w0 ++ l0 →
      Forall (derived (Prefix resource) 0) l0.
Proof.
  intros l l' nibble.
  split; [repeat split; reflexivity|].
  exact (names_regenerable "net-1" resource renamed 0 world world l l'
           eq_refl eq_refl eq_refl).
Defined.

Lemma veth_addresses_witness :
  let w' := (createNetworkResource "net-1" resource 0 world).2 in
  (createNetworkResource "net-1" resource 0 world = (Ok (), w')
   ∧ calls w' = calls world ++ calls w')
  ∧ (∃ a b ip ipnetv4 link,
       ToV4 (NewNibble (Prefix resource) 0) = Ok (a, b)
       ∧ net_ParseCIDR ("10." +:+ fmt_d a +:+ "." +:+ fmt_d b +:+ ".1/24")
         = Ok (ip, ipnetv4)
       ∧ addresses_added (calls w')
         = [ (link, Prefix resource);
             (link, {| net.IPNet_IP := ip; net.IPNet_Mask := net.IPNet_Mask ipnetv4 |}) ]
       ∧ ∃ hostNS hostVeth containerVeth k k' k'',
           K_ip_SetupVeth (VethName (NewNibble (Prefix resource) 0)) 1500 hostNS k
           = (Ok (hostVeth, containerVeth), k')
           ∧ K_netlink_LinkByName (net.Name containerVeth) k' = (Ok link, k''))
  ∧ createNetworkResource "net-1" short_resource 0 world
    = (Err "InvalidAddressError",
       {| calls := [ Bridge_New "b-"; Namespace_Create "n-"; NetNS_Do "n-";
                     Ip_SetupVeth "v-" 1500 "host"; Netlink_LinkByName "v-" ];
          kernel := [] : @K _ kern |}).
Proof.
  intros w'. split; [split; reflexivity|]. split.
  - exact (proj1 (veth_addresses "net-1" resource 0) world w' (calls w')
             eq_refl eq_refl).
  - exact (proj2 (veth_addresses "net-1" short_resource 0) world "InvalidAddressError"
             "b-" [] "n-" [] "host" [] {| net.Name := "veth0" |} {| net.Name := "v-" |}
             [] "v-" [] (or_introl eq_refl) eq_refl eq_refl eq_refl eq_refl eq_refl).
Defined.

Lemma allowed_ips_of_local_nibble_witness :
  let l := calls (configureWG "/var/cache/networkd" resource 0 world).2 in
  let peers := [ peer_entry (NewNibble (Prefix resource) 0) 0 0 tunnel_peer;
                 wireguard_Peer_zero ] in
  (calls (configureWG "/var/cache/networkd" resource 0 world).2 = calls world ++ l
   ∧ peers ∈ configured_peers l)
  ∧ (∀ i peer,
       Connected resource !! i = Some peer →
       Type_ peer = modules_ConnTypeWireguard →
       ∃ a b entry,
         ToV4 (NewNibble (Prefix resource) 0) = Ok (a, b)
         ∧ peers !! i = Some entry
         ∧ PublicKey entry = Key (Connection peer)
         ∧ Endpoint entry = endpoint peer
         ∧ AllowedIPs entry
           = [ "fe80::" +:+ Hex (NewNibble (Prefix resource) 0) +:+ "/128";
               "172.16." +:+ fmt_d a +:+ "." +:+ fmt_d b +:+ "/32" ])
  ∧ (∀ i j peer peer' entry entry',
       Connected resource !! i = Some peer →
       Type_ peer = modules_ConnTypeWireguard →
       Connected resource !! j = Some peer' →
       Type_ peer' = modules_ConnTypeWireguard →
       peers !! i = Some entry →
       peers !! j = Some entry' →
       AllowedIPs entry = AllowedIPs entry').
Proof.
  intros l peers.
  assert (peers ∈ configured_peers l) as Hin by apply list_elem_of_here.
  split; [split; [reflexivity|exact Hin]|].
  exact (allowed_ips_of_local_nibble "/var/cache/networkd" resource 0 world l peers
           eq_refl Hin).
Defined.

Lemma key_obtained_once_witness :
  let first := configureWG "/var/cache/networkd" resource 0 spec_world in
  let second := configureWG "/var/cache/networkd" resource 0 first.2 in
  let path := "/var/cache/networkd/0000" in
  let key := "key-for-/var/cache/networkd/0000" in
  keyfiles kern (kernel first.2) !! path = Some key
  ∧ key_of first.1 = key ∧ key_of second.1 = key
  ∧ keyfiles kern (kernel second.2) = keyfiles kern (kernel first.2)
  ∧ ∃ l2, calls second.2 = calls first.2 ++ Wireguard_LoadKey path :: l2
          ∧ Forall is_mesh_call l2.
Proof.
  intros first second path key.
  assert (keyfiles kern (kernel first.2) !! path = Some key) as Hfile
    by (vm_compute; reflexivity).
  split; [exact Hfile|].
  exact (proj2 (proj2 (key_obtained_once kern "/var/cache/networkd" resource 0 spec_world))
           key Hfile).
Defined.

Lemma delete_sequence_witness :
  let bridgeName := BridgeName (NewNibble (Prefix resource) 0) in
  let netnsName := NetworkName (NewNibble (Prefix resource) 0) in
  let k := kernel bridged_world in
  let k' := {| under := ([] : @K _ kern); bridges := ∅; namespaces := ∅;
               keyfiles := ∅ |} in
  ((bridgeName ∉ bridges kern (kernel spec_world))
   ∧ K_bridge_Delete (Kernel := spec_kernel kern) bridgeName k = (Ok (), k')
   ∧ (netnsName ∉ namespaces kern k'))
  ∧ (∃ e, deleteNetResource resource 0 spec_world
          = (Err e, {| calls := calls spec_world ++ [Bridge_Delete bridgeName];
                       kernel := kernel spec_world |}))
  ∧ (∃ e, deleteNetResource resource 0 bridged_world
          = (Err e, {| calls := calls bridged_world ++ [Bridge_Delete bridgeName;
                                                        Namespace_Delete netnsName];
                       kernel := k' |})).
Proof.
  intros bridgeName netnsName k k'.
  assert (bridgeName ∉ bridges kern (kernel spec_world)) as Hbridge
    by apply not_elem_of_empty.
  assert (K_bridge_Delete (Kernel := spec_kernel kern) bridgeName k = (Ok (), k'))
    as Hdeleted by (vm_compute; reflexivity).
  assert (netnsName ∉ namespaces kern k') as Hnetns by apply not_elem_of_empty.
  split; [done|]. split.
  - exact (proj1 (proj2 (delete_sequence kern resource 0 spec_world)) Hbridge).
  - exact (proj2 (proj2 (delete_sequence kern resource 0 bridged_world)) k' Hdeleted Hnetns).
Defined.

End Examples.

(** * Further properties of networker.go *)

Section MoreTheorems.
Context {Hdecl : Declarations} {Hlib : GoLib} {Hnib : NibbleAPI} {Hkern : Kernel}.

Implicit Types (n : networker) (network : modules_Network)
  (resource : modules_NetResource) (w : World) (c : Call) (l : list Call).

(** ** [endpoint] *)

(** An IPv4 address comes out in brackets whichever of its two forms the
    peer carries, the slice of four bytes or the slice of sixteen. *)
Theorem endpoint_ipv4 (ty : modules_ConnType) (key : string) (port : Z) (a b c d : byte) :
  let dotted := pretty (Byte.to_N a) +:+ "." +:+ pretty (Byte.to_N b) +:+ "."
                  +:+ pretty (Byte.to_N c) +:+ "." +:+ pretty (Byte.to_N d) in
  let peer ip := {| Type_ := ty; Connection := {| IP := ip; Port := port; Key := key |} |} in
  endpoint (peer [a; b; c; d]) = "[" +:+ dotted +:+ "]:" +:+ pretty port
  ∧ endpoint (peer (net.IPv4 a b c d)) = "[" +:+ dotted +:+ "]:" +:+ pretty port.
Proof. split; reflexivity. Qed.

(** ** The peer list *)

(** The loop fails exactly when it meets a peer of the tunnel type while
    [ToV4] fails; it never looks at [ToV4] otherwise. *)
Lemma configureWG_range_Err nibble connected : ∀ i peers e,
  configureWG_range nibble i connected peers = Err e ↔
  ToV4 nibble = Err e ∧ Exists (λ peer, Type_ peer = modules_ConnTypeWireguard) connected.
Proof.
  induction connected as [|peer rest IH]; intros i peers e; simpl.
  - split; [done|]. intros [_ Hex]. by apply Exists_nil in Hex.
  - rewrite Exists_cons. case_decide as Hty.
    + rewrite IH. tauto.
    + destruct (ToV4 nibble) as [[a b]|e'] eqn:Hv4.
      * rewrite IH. split; [tauto|]. by intros [? _].
      * split; [intros [= ->]; auto|]. by intros [[= ->] _].
Qed.

(** Building the peer list fails with [e] exactly when [ToV4] fails with [e]
    and some connected peer is of the tunnel type: with no such peer, and
    with no peer at all, the list is built whatever [ToV4] does, every slot
    holding the zero value. *)
Theorem configureWG_peers_failure nibble resource :
  (∀ e, configureWG_peers nibble resource = Err e ↔
        ToV4 nibble = Err e
        ∧ Exists (λ peer, Type_ peer = modules_ConnTypeWireguard) (Connected resource))
  ∧ (Forall (λ peer, Type_ peer ≠ modules_ConnTypeWireguard) (Connected resource) →
     configureWG_peers nibble resource
     = Ok (replicate (length (Connected resource)) wireguard_Peer_zero)).
Proof.
  split; [intros e; apply configureWG_range_Err|].
  unfold configureWG_peers. generalize 0.
  generalize (replicate (length (Connected resource)) wireguard_Peer_zero).
  induction (Connected resource) as [|peer rest IH]; intros peers i Hall; simpl; [done|].
  inversion Hall; subst. rewrite decide_True by done. by apply IH.
Qed.

(** The peer list has one slot per connected peer, at the index of the
    peer: the entry built from the peer when it is of the tunnel type, and
    the zero value of [wireguard.Peer] when it is not.  A skipped peer
    shortens nothing and shifts nothing. *)
Theorem peer_list_slots nibble resource peers :
  configureWG_peers nibble resource = Ok peers →
  length peers = length (Connected resource)
  ∧ ∀ i peer, Connected resource !! i = Some peer →
      if decide (Type_ peer = modules_ConnTypeWireguard)
      then ∃ a b, ToV4 nibble = Ok (a, b) ∧ peers !! i = Some (peer_entry nibble a b peer)
      else peers !! i = Some wireguard_Peer_zero.
Proof.
  unfold configureWG_peers. intros Hrun. split.
  - apply configureWG_range_below in Hrun as [-> _]. apply length_replicate.
  - intros i peer Hpeer.
    pose proof (configureWG_range_slot _ _ _ _ _ i peer Hrun Hpeer) as Hslot.
    rewrite length_replicate in Hslot. simpl in Hslot.
    apply lookup_lt_Some in Hpeer as Hi. specialize (Hslot Hi).
    case_decide; [done|]. rewrite Hslot. by apply lookup_replicate_2.
Qed.

(** ** The create sequence *)

(** The run of a create that succeeds, call by call. *)
Lemma createNetworkResource_Ok_chain netID resource allocNr w w' :
  let nibble := NewNibble (Prefix resource) allocNr in
  createNetworkResource netID resource allocNr w = (Ok (), w') →
  ∃ br netns hostNS hostVeth containerVeth link ipnetv4 host wg
    k1 k2 k3 k4 k5 k6 k7 k8 k9 k10,
    createNetworkResource_ipnetv4 nibble = Ok ipnetv4
    ∧ K_bridge_New (BridgeName nibble) (kernel w) = (Ok br, k1)
    ∧ K_namespace_Create (NetworkName nibble) k1 = (Ok netns, k2)
    ∧ K_NetNS_Do_enter netns k2 = (Ok hostNS, k3)
    ∧ K_ip_SetupVeth (VethName nibble) 1500 hostNS k3 = (Ok (hostVeth, containerVeth), k4)
    ∧ K_netlink_LinkByName (net.Name containerVeth) k4 = (Ok link, k5)
    ∧ K_netlink_AddrAdd link (Prefix resource) k5 = (Ok (), k6)
    ∧ K_netlink_AddrAdd link ipnetv4 k6 = (Ok (), k7)
    ∧ K_netlink_LinkByName (net.Name hostVeth) (K_NetNS_Do_leave hostNS k7) = (Ok host, k8)
    ∧ K_bridge_AttachNic host br k8 = (Ok (), k9)
    ∧ K_wireguard_New (WiregardName nibble) k9 = (Ok wg, k10)
    ∧ K_namespace_SetLink wg (NetworkName nibble) k10 = (Ok (), kernel w')
    ∧ calls w'
      = calls w ++ [ Bridge_New (BridgeName nibble);
                     Namespace_Create (NetworkName nibble);
                     NetNS_Do netns;
                     Ip_SetupVeth (VethName nibble) 1500 hostNS;
                     Netlink_LinkByName (net.Name containerVeth);
                     Netlink_AddrAdd link (Prefix resource);
                     Netlink_AddrAdd link ipnetv4;
                     Netlink_LinkByName (net.Name hostVeth);
                     Bridge_AttachNic host br;
                     Wireguard_New (WiregardName nibble);
                     Namespace_SetLink wg (NetworkName nibble) ].
Proof.
  intros nibble. unfold createNetworkResource, createNetworkResource_handler.
  fold nibble. intros Hrun. run.
  repeat match goal with u : () |- _ => destruct u end.
  rewrite <- !app_assoc. simpl. by repeat eexists.
Qed.

(** A create that succeeds is this chain of eleven calls, each on the state
    the one before left: the bridge, the namespace, inside the namespace
    the veth pair and the two addresses on its container end, then, back
    outside, the host end looked up by its name and attached to the bridge
    that [bridge.New] returned, and the tunnel interface created on the
    host and moved into the namespace.  Nothing else is called. *)
Theorem createNetworkResource_success netID resource allocNr w w' :
  let nibble := NewNibble (Prefix resource) allocNr in
  createNetworkResource netID resource allocNr w = (Ok (), w') →
  ∃ br netns hostNS hostVeth containerVeth link ipnetv4 host wg
    k1 k2 k3 k4 k5 k6 k7 k8 k9 k10,
    createNetworkResource_ipnetv4 nibble = Ok ipnetv4
    ∧ K_bridge_New (BridgeName nibble) (kernel w) = (Ok br, k1)
    ∧ K_namespace_Create (NetworkName nibble) k1 = (Ok netns, k2)
    ∧ K_NetNS_Do_enter netns k2 = (Ok hostNS, k3)
    ∧ K_ip_SetupVeth (VethName nibble) 1500 hostNS k3 = (Ok (hostVeth, containerVeth), k4)
    ∧ K_netlink_LinkByName (net.Name containerVeth) k4 = (Ok link, k5)
    ∧ K_netlink_AddrAdd link (Prefix resource) k5 = (Ok (), k6)
    ∧ K_netlink_AddrAdd link ipnetv4 k6 = (Ok (), k7)
    ∧ K_netlink_LinkByName (net.Name hostVeth) (K_NetNS_Do_leave hostNS k7) = (Ok host, k8)
    ∧ K_bridge_AttachNic host br k8 = (Ok (), k9)
    ∧ K_wireguard_New (WiregardName nibble) k9 = (Ok wg, k10)
    ∧ K_namespace_SetLink wg (NetworkName nibble) k10 = (Ok (), kernel w')
    ∧ calls w'
      = calls w ++ [ Bridge_New (BridgeName nibble);
                     Namespace_Create (NetworkName nibble);
                     NetNS_Do netns;
                     Ip_SetupVeth (VethName nibble) 1500 hostNS;
                     Netlink_LinkByName (net.Name containerVeth);
                     Netlink_AddrAdd link (Prefix resource);
                     Netlink_AddrAdd link ipnetv4;
                     Netlink_LinkByName (net.Name hostVeth);
                     Bridge_AttachNic host br;
                     Wireguard_New (WiregardName nibble);
                     Namespace_SetLink wg (NetworkName nibble) ].
Proof.
  intros nibble. unfold createNetworkResource, createNetworkResource_handler.
  fold nibble. intros Hrun. run.
  repeat match goal with u : () |- _ => destruct u end.
  rewrite <- !app_assoc. simpl. by repeat eexists.
Qed.

(** ** What apply and delete never call *)

(** [ApplyNetResource] never deletes: whatever step fails, no call of
    [bridge.Delete] or [namespace.Delete] undoes the steps before it. *)
Theorem ApplyNetResource_never_deletes n network w l name :
  calls (ApplyNetResource n network w).2 = calls w ++ l →
  (Bridge_Delete name ∉ l) ∧ (Namespace_Delete name ∉ l).
Proof.
  intros Hl.
  assert (Forall (λ c, is_builder_call c ∨ is_key_call c ∨ is_mesh_call c) l) as Hall.
  { unfold ApplyNetResource in Hl.
    destruct (ApplyNetResource_range n (Resources network)) as [resource|].
    - rewrite applyNetResource_steps in Hl.
      destruct (createNetworkResource_calls (NetID network) resource (AllocationNR network) w)
        as (l1 & Hl1 & Hb1 & _).
      destruct (createNetworkResource _ _ _ w) as [[[]|e1] w1]; simpl in *.
      + destruct (configureWG_key_calls (storageDir n) resource (AllocationNR network) w1)
          as (l2 & Hl2 & Hb2 & _). simpl in Hl2.
        destruct (configureWG_key _ w1) as [[key|[key e2]] w2]; simpl in *.
        * destruct (configureWG_configure_calls key resource (AllocationNR network) w2)
            as (l3 & Hl3 & Hb3 & _). simpl in Hl3.
          assert (l = l1 ++ l2 ++ l3) as ->.
          { destruct (configureWG_configure _ _ _ w2) as [[?|[? ?]] w3]; simpl in *;
              rewrite Hl3, Hl2, Hl1, <- !app_assoc in Hl; by simplify_list_eq. }
          rewrite !Forall_app. repeat split; eapply Forall_impl; eauto; simpl; tauto.
        * rewrite Hl2, Hl1, <- !app_assoc in Hl. simplify_list_eq.
          rewrite !Forall_app. split; eapply Forall_impl; eauto; simpl; tauto.
      + rewrite Hl1 in Hl. simplify_list_eq. eapply Forall_impl; eauto; simpl; tauto.
    - simpl in Hl. rewrite <- (app_nil_r (calls w)) in Hl at 1. by simplify_list_eq. }
  rewrite Forall_forall in Hall.
  split; intros Hin; apply Hall in Hin; simpl in Hin; tauto.
Qed.

(** [DeleteNetResource] calls [bridge.Delete] and, when that succeeded,
    [namespace.Delete], and nothing else: it removes no key file and
    touches neither the veth pair nor the tunnel interface itself. *)
Theorem DeleteNetResource_only_deletes n network w l :
  calls (DeleteNetResource n network w).2 = calls w ++ l →
  l = []
  ∨ ∃ resource,
      ApplyNetResource_range n (Resources network) = Some resource
      ∧ let nibble := NewNibble (Prefix resource) (AllocationNR network) in
        l = [Bridge_Delete (BridgeName nibble)]
        ∨ l = [Bridge_Delete (BridgeName nibble); Namespace_Delete (NetworkName nibble)].
Proof.
  unfold DeleteNetResource. rewrite DeleteNetResource_range_eq.
  destruct (ApplyNetResource_range n (Resources network)) as [resource|]; simpl.
  - rewrite deleteNetResource_steps. intros Hl. right. exists resource. split; [done|].
    simpl. repeat case_match; simpl in Hl; simplify_list_eq; auto.
  - intros Hl. left. rewrite <- (app_nil_r (calls w)) in Hl at 1. by simplify_list_eq.
Qed.

(** ** What the result depends on *)

(** Apply and delete depend on the network through the first entry of this
    node and the allocation number only: the [NetID], the entries of other
    nodes before that entry and every entry after it change nothing. *)
Theorem selected_resource_only n network network' resource before after before' after' w :
  Resources network = before ++ resource :: after →
  Resources network' = before' ++ resource :: after' →
  Forall (λ res, NodeID res ≠ nodeID n) before →
  Forall (λ res, NodeID res ≠ nodeID n) before' →
  NodeID resource = nodeID n →
  AllocationNR network' = AllocationNR network →
  ApplyNetResource n network' w = ApplyNetResource n network w
  ∧ DeleteNetResource n network' w = DeleteNetResource n network w.
Proof.
  intros Hres Hres' Hbefore Hbefore' Hid Halloc.
  assert (ApplyNetResource_range n (Resources network) = Some resource) as Hsel
    by (apply ApplyNetResource_range_Some; eauto 6).
  assert (ApplyNetResource_range n (Resources network') = Some resource) as Hsel'
    by (apply ApplyNetResource_range_Some; eauto 6).
  unfold ApplyNetResource, DeleteNetResource. split.
  - rewrite Hsel, Hsel', Halloc. rewrite !applyNetResource_steps.
    unfold createNetworkResource. reflexivity.
  - pose proof (DeleteNetResource_range_eq n (Resources network)) as Hd.
    pose proof (DeleteNetResource_range_eq n (Resources network')) as Hd'.
    rewrite Hsel in Hd. rewrite Hsel' in Hd'. by rewrite Hd, Hd', Halloc.
Qed.

(** ** [configureWG] *)

(** [configureWG] returns the key of its first block on every path: once
    a key is loaded or generated, every later [return] carries it, with or
    without an error; and when neither loading nor generating gave a key,
    what [GenerateKey] returned is returned, in the world it left, before
    any other call. *)
Theorem configureWG_returns_key storageDir resource allocNr w :
  let nibble := NewNibble (Prefix resource) allocNr in
  let storagePath := filepath_Join storageDir (Hex nibble) in
  match configureWG_key storagePath w with
  | (Ok key, w1) => key_of (configureWG storageDir resource allocNr w).1 = key
  | (Err failure, w1) => configureWG storageDir resource allocNr w = (Err failure, w1)
  end.
Proof.
  intros nibble storagePath. unfold configureWG. fold nibble storagePath.
  unfold bind.
  destruct (configureWG_key storagePath w) as [[key|failure] w1]; [|done].
  unfold configureWG_configure, configureWG_handler. run; done.
Qed.

(** With a peer of the tunnel type and a failing [ToV4], [configureWG]
    returns the error of [ToV4] beside the key, in the world its first
    block left: the key is loaded, or generated and persisted, before the
    failure, and neither the namespace nor the interface is looked up. *)
Theorem configureWG_ToV4_failure storageDir resource allocNr w key w1 e :
  let nibble := NewNibble (Prefix resource) allocNr in
  ToV4 nibble = Err e →
  Exists (λ peer, Type_ peer = modules_ConnTypeWireguard) (Connected resource) →
  configureWG_key (filepath_Join storageDir (Hex nibble)) w = (Ok key, w1) →
  configureWG storageDir resource allocNr w = (Err (key, e), w1).
Proof.
  intros nibble Hv4 Hpeer Hkey.
  assert (configureWG_peers nibble resource = Err e) as Hpeers
    by (by apply configureWG_range_Err).
  unfold configureWG. fold nibble. unfold bind at 1. rewrite Hkey.
  unfold configureWG_configure, bind, map_err, lift. by rewrite Hpeers.
Qed.

(** A [configureWG] that succeeds has, after its first block, looked the
    namespace up by name, entered it, looked the interface up by name and
    called [Configure] once, on that interface, with the string of the
    resource's [LinkLocal], the string of the very key it returns, and the
    peer list built from [Connected]. *)
Theorem configureWG_success storageDir resource allocNr w key w' :
  let nibble := NewNibble (Prefix resource) allocNr in
  configureWG storageDir resource allocNr w = (Ok key, w') →
  ∃ w1 peers netns hostNS wg k2 k3 k4 k5,
    configureWG_key (filepath_Join storageDir (Hex nibble)) w = (Ok key, w1)
    ∧ configureWG_peers nibble resource = Ok peers
    ∧ K_namespace_GetByName (NetworkName nibble) (kernel w1) = (Ok netns, k2)
    ∧ K_NetNS_Do_enter netns k2 = (Ok hostNS, k3)
    ∧ K_wireguard_GetByName (WiregardName nibble) k3 = (Ok wg, k4)
    ∧ K_Wireguard_Configure wg (net_IPNet_String (LinkLocal resource))
        (wgtypes_Key_String key) peers k4 = (Ok (), k5)
    ∧ kernel w' = K_NetNS_Do_leave hostNS k5
    ∧ calls w'
      = calls w1 ++ [ Namespace_GetByName (NetworkName nibble);
                      NetNS_Do netns;
                      Wireguard_GetByName (WiregardName nibble);
                      Wg_Configure wg (net_IPNet_String (LinkLocal resource))
                        (wgtypes_Key_String key) peers ].
Proof.
  intros nibble. unfold configureWG. fold nibble. unfold bind at 1.
  destruct (configureWG_key _ w) as [[key1|failure] w1]; [|done].
  unfold configureWG_configure, configureWG_handler. intros Hrun. run.
  repeat match goal with u : () |- _ => destruct u end.
  rewrite <- !app_assoc. simpl. by repeat eexists.
Qed.

(** ** [NewNetworker] *)

(** [NewNetworker] leaves [nodeID] at its zero value.  The networker it
    returns therefore takes, in any network, the first entry whose [NodeID]
    is the zero value, and rejects every network without such an entry,
    whatever the identity of the node. *)
Theorem NewNetworker_nodeID (zero : modules_NodeID) {Allocator : Type}
    (storageDir : string) (allocator : Allocator) network w :
  let n := (NewNetworker zero storageDir allocator).1 in
  (Forall (λ res, NodeID res ≠ zero) (Resources network) →
   ApplyNetResource n network w
   = (Err ("not network resource for this node: " +:+ ID zero), w)
   ∧ DeleteNetResource n network w
     = (Err ("not network resource for this node: " +:+ ID zero), w))
  ∧ (∀ before resource after,
       Resources network = before ++ resource :: after →
       Forall (λ res, NodeID res ≠ zero) before →
       NodeID resource = zero →
       ApplyNetResource n network w
       = applyNetResource storageDir (NetID network) resource (AllocationNR network) w
       ∧ DeleteNetResource n network w
         = deleteNetResource resource (AllocationNR network) w).
Proof.
  intros n. split.
  - intros Hnone%(ApplyNetResource_range_None n).
    pose proof (DeleteNetResource_range_eq n (Resources network)) as Hd.
    rewrite Hnone in Hd. unfold ApplyNetResource, DeleteNetResource.
    by rewrite Hnone, Hd.
  - intros before resource after Hres Hbefore Hid.
    assert (ApplyNetResource_range n (Resources network) = Some resource) as Hsel
      by (apply ApplyNetResource_range_Some; eauto 6).
    pose proof (DeleteNetResource_range_eq n (Resources network)) as Hd.
    rewrite Hsel in Hd. unfold ApplyNetResource, DeleteNetResource.
    by rewrite Hsel, Hd.
Qed.

(** ** [wgIP] *)

(** [wgIP] panics on a prefix whose address is neither 4 nor 16 bytes
    long.  Of a 16-byte address it uses bytes 6 and 7 and nothing else, so
    that two prefixes that agree on these two bytes get the same link-local
    network; of a 4-byte address it uses nothing at all: every IPv4 prefix
    gets the network parsed from "fe80::0000/64".  The mask of the prefix
    is never read. *)
Theorem wgIP_cases (prefix : net.IPNet) :
  let ip := net.IPNet_IP prefix in
  let parsed (id : list byte) :=
    match net_ParseCIDR ("fe80::" +:+ net.hexString id +:+ "/64") with
    | Err err => Returns (Err err)
    | Ok (_, ipnet) => Returns (Ok ipnet)
    end in
  (length ip ≠ 4 → length ip ≠ 16 → wgIP prefix = Panics)
  ∧ (length ip = 4 → wgIP prefix = parsed [x00; x00])
  ∧ (length ip = 16 → wgIP prefix = parsed (take 2 (drop 6 ip))).
Proof.
  intros ip parsed. unfold wgIP, net.To16, net.IPv6len. fold ip.
  repeat split.
  - intros H4 H16.
    destruct ip as [|? [|? [|? [|? [|? rest]]]]]; simpl in *; try done.
    destruct (Nat.eqb_spec (length rest) 11); [lia|done].
  - intros H4. by destruct ip as [|? [|? [|? [|? [|? rest]]]]].
  - intros H16.
    destruct ip as [|? [|? [|? [|? [|? rest]]]]]; simpl in *; try done.
    destruct (Nat.eqb_spec (length rest) 11) as [Hlen|]; [|lia].
    simpl. by rewrite Hlen.
Qed.

End MoreTheorems.

(** ** Composition on the primitives the spec describes *)

Section MoreSpecTheorems.
Context {Hdecl : Declarations} {Hlib : GoLib} {Hnib : NibbleAPI}.
Variable base : Kernel.

Local Abbreviation SK := (spec_kernel base).
Local Abbreviation SWorld := (@World _ SK).

(** A delete that finds no bridge of the name changes nothing but the
    list of calls. *)
Lemma deleteNetResource_no_bridge resource allocNr (w : SWorld) :
  let nibble := NewNibble (Prefix resource) allocNr in
  BridgeName nibble ∉ bridges base (kernel w) →
  kernel (deleteNetResource resource allocNr w).2 = kernel w
  ∧ calls (deleteNetResource resource allocNr w).2
    = calls w ++ [Bridge_Delete (BridgeName nibble)]
  ∧ ∃ e, (deleteNetResource resource allocNr w).1 = Err e.
Proof.
  intros nibble Habsent. rewrite deleteNetResource_steps. fold nibble.
  simpl. unfold spec_bridge_Delete. rewrite decide_False by done. simpl. eauto.
Qed.

(** A delete whose [namespace.Delete] failed cannot be retried: the bridge
    is gone, so every later [deleteNetResource] of the resource fails at
    [bridge.Delete] and returns before [namespace.Delete]; however often it
    is run, the kernel stays as the first run left it, the namespace with
    it. *)
Theorem delete_not_retryable resource allocNr (w : SWorld) e :
  let nibble := NewNibble (Prefix resource) allocNr in
  let first := deleteNetResource resource allocNr w in
  let again (w0 : SWorld) : SWorld := (deleteNetResource resource allocNr w0).2 in
  calls first.2 = calls w ++ [ Bridge_Delete (BridgeName nibble);
                               Namespace_Delete (NetworkName nibble) ] →
  first.1 = Err e →
  (BridgeName nibble ∉ bridges base (kernel first.2))
  ∧ (∃ e', deleteNetResource resource allocNr first.2
           = (Err e', {| calls := calls first.2 ++ [Bridge_Delete (BridgeName nibble)];
                         kernel := kernel first.2 |}))
  ∧ ∀ m, kernel (Nat.iter m again first.2) = kernel first.2.
Proof.
  intros nibble first again Hcalls Hfailed.
  assert (BridgeName nibble ∉ bridges base (kernel first.2)) as Hgone.
  { revert Hcalls Hfailed. unfold first. rewrite deleteNetResource_steps. fold nibble.
    simpl. unfold spec_bridge_Delete, spec_namespace_Delete, set_under.
    repeat case_match; simpl; intros; simplify_list_eq.
    all: intros [_ Hnot]%elem_of_difference; apply Hnot; by apply elem_of_singleton. }
  split; [done|]. split.
  - destruct (deleteNetResource_no_bridge resource allocNr first.2 Hgone)
      as (Hk & Hc & e' & He'). fold nibble in Hc.
    exists e'. destruct (deleteNetResource resource allocNr first.2) as [r [c2 s2]].
    simpl in *. by rewrite He', Hc, Hk.
  - induction m as [|m IH]; [done|]. simpl. unfold again at 1.
    rewrite <- IH in Hgone.
    destruct (deleteNetResource_no_bridge resource allocNr _ Hgone) as (Hk & _).
    by rewrite Hk.
Qed.

(** Deleting a resource leaves its key file: when a key is persisted at
    the path of the resource, [deleteNetResource] changes no key file and
    the next [configureWG] returns that key again. *)
Theorem delete_keeps_key storageDir resource allocNr (w : SWorld) key :
  let nibble := NewNibble (Prefix resource) allocNr in
  let path := filepath_Join storageDir (Hex nibble) in
  let after := (deleteNetResource resource allocNr w).2 in
  keyfiles base (kernel w) !! path = Some key →
  keyfiles base (kernel after) = keyfiles base (kernel w)
  ∧ key_of (configureWG storageDir resource allocNr after).1 = key.
Proof.
  intros nibble path after Hkey.
  assert (keyfiles base (kernel after) = keyfiles base (kernel w)) as Hfiles.
  { unfold after. rewrite deleteNetResource_steps. simpl.
    unfold spec_bridge_Delete, spec_namespace_Delete, set_under.
    by repeat case_match; simplify_eq/=. }
  split; [done|].
  pose proof (configureWG_files base storageDir resource allocNr after) as Hrun.
  simpl in Hrun. fold nibble path in Hrun.
  destruct (configureWG storageDir resource allocNr after) as [r w'].
  rewrite Hfiles, Hkey in Hrun. by destruct Hrun as [Hr _].
Qed.

(** What each primitive does to the three sets. *)
Lemma through_keeps {E A} (op : @K _ base → result E A * @K _ base) s r s' :
  through base op s = (r, s') →
  bridges base s' = bridges base s
  ∧ namespaces base s' = namespaces base s
  ∧ keyfiles base s' = keyfiles base s.
Proof.
  unfold through, set_under. destruct (op (under base s)) as [r0 k].
  by intros [= <- <-].
Qed.

Lemma spec_bridge_New_Ok name s br s' :
  spec_bridge_New base name s = (Ok br, s') →
  bridges base s' = {[name]} ∪ bridges base s
  ∧ namespaces base s' = namespaces base s
  ∧ keyfiles base s' = keyfiles base s.
Proof.
  unfold spec_bridge_New, set_under.
  destruct (K_bridge_New name (under base s)) as [[br0|e] k]; [|done].
  by intros [= <- <-].
Qed.

Lemma spec_namespace_Create_Ok name s netns s' :
  spec_namespace_Create base name s = (Ok netns, s') →
  bridges base s' = bridges base s
  ∧ namespaces base s' = {[name]} ∪ namespaces base s
  ∧ keyfiles base s' = keyfiles base s.
Proof.
  unfold spec_namespace_Create, set_under.
  destruct (K_namespace_Create name (under base s)) as [[netns0|e] k]; [|done].
  by intros [= <- <-].
Qed.

(** After a create that succeeded, the bridge and the namespace of the
    resource exist; no key file has changed. *)
Lemma createNetworkResource_exist netID resource allocNr (w w' : SWorld) :
  let nibble := NewNibble (Prefix resource) allocNr in
  createNetworkResource netID resource allocNr w = (Ok (), w') →
  bridges base (kernel w') = {[BridgeName nibble]} ∪ bridges base (kernel w)
  ∧ namespaces base (kernel w') = {[NetworkName nibble]} ∪ namespaces base (kernel w)
  ∧ keyfiles base (kernel w') = keyfiles base (kernel w).
Proof.
  intros nibble Hrun.
  apply createNetworkResource_Ok_chain in Hrun
    as (br & netns & hostNS & hostVeth & containerVeth & link & ipnetv4 & host & wg
        & k1 & k2 & k3 & k4 & k5 & k6 & k7 & k8 & k9 & k10
        & _ & H1 & H2 & H3 & H4 & H5 & H6 & H7 & H8 & H9 & H10 & H11 & _).
  fold nibble in H1, H2, H4, H10, H11.
  apply spec_bridge_New_Ok in H1 as (B1 & N1 & F1).
  apply spec_namespace_Create_Ok in H2 as (B2 & N2 & F2).
  apply through_keeps in H3 as (B3 & N3 & F3).
  apply through_keeps in H4 as (B4 & N4 & F4).
  apply through_keeps in H5 as (B5 & N5 & F5).
  apply through_keeps in H6 as (B6 & N6 & F6).
  apply through_keeps in H7 as (B7 & N7 & F7).
  apply through_keeps in H8 as (B8 & N8 & F8).
  apply through_keeps in H9 as (B9 & N9 & F9).
  apply through_keeps in H10 as (B10 & N10 & F10).
  apply through_keeps in H11 as (B11 & N11 & F11).
  simpl in B8, N8, F8.
  repeat split; congruence.
Qed.

(** Create then delete: after a create that succeeded, a delete never
    meets the lookup error; when the kernel underneath carries out the two
    deletions, it succeeds and takes the bridge and the namespace away
    again, so that the two sets are what they were before the create if
    they did not hold these names then.  The key files are untouched. *)
Theorem create_then_delete netID resource allocNr (w w' : SWorld) k1 k2 :
  let nibble := NewNibble (Prefix resource) allocNr in
  createNetworkResource netID resource allocNr w = (Ok (), w') →
  K_bridge_Delete (Kernel := base) (BridgeName nibble) (under base (kernel w')) = (Ok (), k1) →
  K_namespace_Delete (Kernel := base) (NetworkName nibble) k1 = (Ok (), k2) →
  ∃ w'',
    deleteNetResource resource allocNr w' = (Ok (), w'')
    ∧ calls w'' = calls w' ++ [ Bridge_Delete (BridgeName nibble);
                                Namespace_Delete (NetworkName nibble) ]
    ∧ under base (kernel w'') = k2
    ∧ bridges base (kernel w'') = bridges base (kernel w) ∖ {[BridgeName nibble]}
    ∧ namespaces base (kernel w'') = namespaces base (kernel w) ∖ {[NetworkName nibble]}
    ∧ keyfiles base (kernel w'') = keyfiles base (kernel w).
Proof.
  intros nibble Hcreate Hbr Hns.
  destruct (createNetworkResource_exist _ _ _ _ _ Hcreate) as (Hb & Hn & Hf).
  fold nibble in Hb, Hn.
  rewrite deleteNetResource_steps. fold nibble. simpl.
  unfold spec_bridge_Delete. rewrite decide_True
    by (rewrite Hb; apply elem_of_union_l; by apply elem_of_singleton).
  rewrite Hbr. simpl. unfold spec_namespace_Delete. simpl.
  rewrite decide_True
    by (rewrite Hn; apply elem_of_union_l; by apply elem_of_singleton).
  rewrite Hns. simpl.
  eexists. split; [done|]. simpl. rewrite Hb, Hn, Hf.
  repeat split.
  - apply set_eq. intros x. rewrite !elem_of_difference, elem_of_union. tauto.
  - apply set_eq. intros x. rewrite !elem_of_difference, elem_of_union. tauto.
Qed.

End MoreSpecTheorems.

(** ** The further properties on concrete inputs *)

Section MoreExamples.
Import Demo DemoMore.
Local Existing Instances declarations golib nibble kern.

Lemma configureWG_peers_failure_witness :
  (ToV4 (NewNibble (Prefix short_peered) 0) = Err "InvalidAddressError"
   ∧ Exists (λ peer, Type_ peer = modules_ConnTypeWireguard) (Connected short_peered)
   ∧ Forall (λ peer, Type_ peer ≠ modules_ConnTypeWireguard) (Connected other_only))
  ∧ configureWG_peers (NewNibble (Prefix short_peered) 0) short_peered
    = Err "InvalidAddressError"
  ∧ configureWG_peers (NewNibble (Prefix other_only) 0) other_only
    = Ok [wireguard_Peer_zero].
Proof.
  assert (Exists (λ peer, Type_ peer = modules_ConnTypeWireguard) (Connected short_peered))
    as Hex by (apply Exists_cons_tl, Exists_cons_hd; reflexivity).
  assert (Forall (λ peer, Type_ peer ≠ modules_ConnTypeWireguard) (Connected other_only))
    as Hall by (constructor; [discriminate|constructor]).
  split; [by repeat split|]. split.
  - exact (proj2 (proj1 (configureWG_peers_failure (NewNibble (Prefix short_peered) 0)
                           short_peered) "InvalidAddressError") (conj eq_refl Hex)).
  - exact (proj2 (configureWG_peers_failure (NewNibble (Prefix other_only) 0)
                    other_only) Hall).
Defined.

Lemma peer_list_slots_witness :
  let nib := NewNibble (Prefix reordered) 0 in
  let peers := [wireguard_Peer_zero; peer_entry nib 0 0 tunnel_peer] in
  configureWG_peers nib reordered = Ok peers
  ∧ length peers = length (Connected reordered)
  ∧ ∀ i peer, Connected reordered !! i = Some peer →
      if decide (Type_ peer = modules_ConnTypeWireguard)
      then ∃ a b, ToV4 nib = Ok (a, b) ∧ peers !! i = Some (peer_entry nib a b peer)
      else peers !! i = Some wireguard_Peer_zero.
Proof.
  intros nib peers.
  assert (configureWG_peers nib reordered = Ok peers) as Hbuilt by reflexivity.
  split; [exact Hbuilt|]. exact (peer_list_slots nib reordered peers Hbuilt).
Defined.

Lemma createNetworkResource_success_witness :
  let w' := (createNetworkResource "net-1" resource 0 world).2 in
  createNetworkResource "net-1" resource 0 world = (Ok (), w')
  ∧ ∃ br netns hostNS hostVeth containerVeth link ipnetv4 host wg,
      calls w'
      = calls world ++ [ Bridge_New "b-0000"; Namespace_Create "n-0000"; NetNS_Do netns;
                         Ip_SetupVeth "v-0000" 1500 hostNS;
                         Netlink_LinkByName (net.Name containerVeth);
                         Netlink_AddrAdd link (Prefix resource);
                         Netlink_AddrAdd link ipnetv4;
                         Netlink_LinkByName (net.Name hostVeth);
                         Bridge_AttachNic host br;
                         Wireguard_New "w-0000"; Namespace_SetLink wg "n-0000" ].
Proof.
  intros w'.
  assert (createNetworkResource "net-1" resource 0 world = (Ok (), w')) as Hrun
    by reflexivity.
  split; [exact Hrun|].
  destruct (createNetworkResource_success "net-1" resource 0 world w' Hrun)
    as (br & netns & hostNS & hostVeth & containerVeth & link & ipnetv4 & host & wg
        & k1 & k2 & k3 & k4 & k5 & k6 & k7 & k8 & k9 & k10 & Hchain).
  exists br, netns, hostNS, hostVeth, containerVeth, link, ipnetv4, host, wg.
  apply Hchain.
Defined.

Lemma ApplyNetResource_never_deletes_witness :
  let l := calls (ApplyNetResource node1 network world).2 in
  calls (ApplyNetResource node1 network world).2 = calls world ++ l
  ∧ (Bridge_Delete "b-0000" ∉ l) ∧ (Namespace_Delete "n-0000" ∉ l).
Proof.
  intros l.
  assert (calls (ApplyNetResource node1 network world).2 = calls world ++ l) as Hl
    by reflexivity.
  split; [exact Hl|]. split.
  - exact (proj1 (ApplyNetResource_never_deletes node1 network world l "b-0000" Hl)).
  - exact (proj2 (ApplyNetResource_never_deletes node1 network world l "n-0000" Hl)).
Defined.

Lemma DeleteNetResource_only_deletes_witness :
  let l := calls (DeleteNetResource node1 network world).2 in
  calls (DeleteNetResource node1 network world).2 = calls world ++ l
  ∧ (l = []
     ∨ ∃ resource,
         ApplyNetResource_range node1 (Resources network) = Some resource
         ∧ let nibble := NewNibble (Prefix resource) (AllocationNR network) in
           l = [Bridge_Delete (BridgeName nibble)]
           ∨ l = [Bridge_Delete (BridgeName nibble); Namespace_Delete (NetworkName nibble)]).
Proof.
  intros l.
  assert (calls (DeleteNetResource node1 network world).2 = calls world ++ l) as Hl
    by reflexivity.
  split; [exact Hl|].
  exact (DeleteNetResource_only_deletes node1 network world l Hl).
Defined.

Lemma selected_resource_only_witness :
  (Resources network = [foreign_resource] ++ resource :: [second_resource]
   ∧ Resources other_network = [] ++ resource :: [foreign_resource]
   ∧ Forall (λ res, NodeID res ≠ nodeID node1) [foreign_resource]
   ∧ Forall (λ res, NodeID res ≠ nodeID node1) []
   ∧ NodeID resource = nodeID node1
   ∧ AllocationNR other_network = AllocationNR network)
  ∧ ApplyNetResource node1 other_network world = ApplyNetResource node1 network world
  ∧ DeleteNetResource node1 other_network world = DeleteNetResource node1 network world.
Proof.
  assert (Forall (λ res, NodeID res ≠ nodeID node1) [foreign_resource]) as Hbefore
    by (constructor; [discriminate|constructor]).
  split; [by repeat split; try constructor|].
  exact (selected_resource_only node1 network other_network resource
           [foreign_resource] [second_resource] [] [foreign_resource] world
           eq_refl eq_refl Hbefore (List.Forall_nil _) eq_refl eq_refl).
Defined.

Lemma configureWG_ToV4_failure_witness :
  let path := filepath_Join "/var/cache/networkd" (Hex (NewNibble (Prefix short_peered) 0)) in
  let w1 := (configureWG_key path world).2 in
  (ToV4 (NewNibble (Prefix short_peered) 0) = Err "InvalidAddressError"
   ∧ Exists (λ peer, Type_ peer = modules_ConnTypeWireguard) (Connected short_peered)
   ∧ configureWG_key path world = (Ok "key-on-disk", w1))
  ∧ configureWG "/var/cache/networkd" short_peered 0 world
    = (Err ("key-on-disk", "InvalidAddressError"), w1).
Proof.
  intros path w1.
  assert (Exists (λ peer, Type_ peer = modules_ConnTypeWireguard) (Connected short_peered))
    as Hex by (apply Exists_cons_tl, Exists_cons_hd; reflexivity).
  split; [by repeat split|].
  exact (configureWG_ToV4_failure "/var/cache/networkd" short_peered 0 world
           "key-on-disk" w1 "InvalidAddressError" eq_refl Hex eq_refl).
Defined.

Lemma configureWG_success_witness :
  let w' := (configureWG "/var/cache/networkd" resource 0 world).2 in
  configureWG "/var/cache/networkd" resource 0 world = (Ok "key-on-disk", w')
  ∧ ∃ w1 peers netns wg,
      configureWG_key "/var/cache/networkd/0000" world = (Ok "key-on-disk", w1)
      ∧ configureWG_peers (NewNibble (Prefix resource) 0) resource = Ok peers
      ∧ calls w'
        = calls w1 ++ [ Namespace_GetByName "n-0000"; NetNS_Do netns;
                        Wireguard_GetByName "w-0000";
                        Wg_Configure wg "fe80::aaaa/64" "key-on-disk" peers ].
Proof.
  intros w'.
  assert (configureWG "/var/cache/networkd" resource 0 world = (Ok "key-on-disk", w'))
    as Hrun by reflexivity.
  split; [exact Hrun|].
  destruct (configureWG_success "/var/cache/networkd" resource 0 world "key-on-disk" w'
              Hrun)
    as (w1 & peers & netns & hostNS & wg & k2 & k3 & k4 & k5
        & Hkey & Hpeers & _ & _ & _ & _ & _ & Hcalls).
  exists w1, peers, netns, wg. repeat split; [exact Hkey|exact Hpeers|exact Hcalls].
Defined.

Lemma NewNetworker_nodeID_witness :
  let n := (NewNetworker "" "/var/cache/networkd" ()).1 in
  Forall (λ res, NodeID res ≠ "") (Resources network)
  ∧ ApplyNetResource n network world
    = (Err "not network resource for this node: ", world)
  ∧ DeleteNetResource n network world
    = (Err "not network resource for this node: ", world).
Proof.
  intros n.
  assert (Forall (λ res, NodeID res ≠ "") (Resources network)) as Hall
    by (repeat constructor; discriminate).
  split; [exact Hall|].
  exact (proj1 (NewNetworker_nodeID "" "/var/cache/networkd" () network world) Hall).
Defined.

Lemma wgIP_cases_witness :
  (length (net.IPNet_IP prefix) = 16
   ∧ length (net.IPNet_IP (Prefix short_resource)) = 4
   ∧ length [x0a; x00; x00] ≠ 4 ∧ length [x0a; x00; x00] ≠ 16)
  ∧ wgIP prefix
    = match net_ParseCIDR "fe80::0000/64" with
      | Err err => Returns (Err err)
      | Ok (_, ipnet) => Returns (Ok ipnet)
      end
  ∧ wgIP (Prefix short_resource)
    = match net_ParseCIDR "fe80::0000/64" with
      | Err err => Returns (Err err)
      | Ok (_, ipnet) => Returns (Ok ipnet)
      end
  ∧ wgIP {| net.IPNet_IP := [x0a; x00; x00]; net.IPNet_Mask := [] |} = Panics.
Proof.
  split; [by repeat split|]. split; [|split].
  - exact (proj2 (proj2 (wgIP_cases prefix)) eq_refl).
  - exact (proj1 (proj2 (wgIP_cases (Prefix short_resource))) eq_refl).
  - refine (proj1 (wgIP_cases {| net.IPNet_IP := [x0a; x00; x00]; net.IPNet_Mask := [] |})
              _ _); discriminate.
Defined.

Lemma delete_not_retryable_witness :
  let first := deleteNetResource resource 0 stuck_world in
  let again (w0 : @World declarations (spec_kernel kern)) := (deleteNetResource resource 0 w0).2 in
  (calls first.2 = calls stuck_world ++ [Bridge_Delete "b-0000"; Namespace_Delete "n-0000"]
   ∧ first.1 = Err "namespace.Delete failed")
  ∧ ("b-0000" ∉ bridges kern (kernel first.2))
  ∧ (∃ e', deleteNetResource resource 0 first.2
           = (Err e', {| calls := calls first.2 ++ [Bridge_Delete "b-0000"];
                         kernel := kernel first.2 |}))
  ∧ ∀ m, kernel (Nat.iter m again first.2) = kernel first.2.
Proof.
  intros first again.
  assert (calls first.2
          = calls stuck_world ++ [Bridge_Delete "b-0000"; Namespace_Delete "n-0000"])
    as Hcalls by reflexivity.
  assert (first.1 = Err "namespace.Delete failed") as Hfailed by reflexivity.
  split; [by split|].
  exact (delete_not_retryable kern resource 0 stuck_world "namespace.Delete failed"
           Hcalls Hfailed).
Defined.

Lemma delete_keeps_key_witness :
  let w := (configureWG "/var/cache/networkd" resource 0 spec_world).2 in
  let key := "key-for-/var/cache/networkd/0000" in
  let after := (deleteNetResource resource 0 w).2 in
  keyfiles kern (kernel w) !! "/var/cache/networkd/0000" = Some key
  ∧ keyfiles kern (kernel after) = keyfiles kern (kernel w)
  ∧ key_of (configureWG "/var/cache/networkd" resource 0 after).1 = key.
Proof.
  intros w key after.
  assert (keyfiles kern (kernel w) !! "/var/cache/networkd/0000" = Some key) as Hkey
    by (vm_compute; reflexivity).
  split; [exact Hkey|].
  exact (delete_keeps_key kern "/var/cache/networkd" resource 0 w key Hkey).
Defined.

Lemma create_then_delete_witness :
  let w' := (createNetworkResource "net-1" resource 0 spec_world).2 in
  let k := under kern (kernel w') in
  (createNetworkResource "net-1" resource 0 spec_world = (Ok (), w')
   ∧ K_bridge_Delete (Kernel := kern) "b-0000" k = (Ok (), k)
   ∧ K_namespace_Delete (Kernel := kern) "n-0000" k = (Ok (), k))
  ∧ ∃ w'',
      deleteNetResource resource 0 w' = (Ok (), w'')
      ∧ calls w'' = calls w' ++ [Bridge_Delete "b-0000"; Namespace_Delete "n-0000"]
      ∧ under kern (kernel w'') = k
      ∧ bridges kern (kernel w'') = bridges kern (kernel spec_world) ∖ {["b-0000"]}
      ∧ namespaces kern (kernel w'') = namespaces kern (kernel spec_world) ∖ {["n-0000"]}
      ∧ keyfiles kern (kernel w'') = keyfiles kern (kernel spec_world).
Proof.
  intros w' k.
  assert (createNetworkResource "net-1" resource 0 spec_world = (Ok (), w')) as Hcreate
    by reflexivity.
  assert (K_bridge_Delete (Kernel := kern) "b-0000" k = (Ok (), k)) as Hbr
    by reflexivity.
  assert (K_namespace_Delete (Kernel := kern) "n-0000" k = (Ok (), k)) as Hns
    by reflexivity.
  split; [by repeat split|].
  exact (create_then_delete kern "net-1" resource 0 spec_world w' k k Hcreate Hbr Hns).
Defined.

End MoreExamples.
